(** * Huntly: job store, ingestion, review state machine and dispatch queue

    Shallow embedding of [storage.py], [proposal_pipeline.py] and
    [telegram_bot.py].  Python strings are modelled as Rocq strings whose
    characters are read as Latin-1 code points (0..255). *)

From Stdlib Require Import String Ascii ZArith List Lia.
From stdpp Require Import base gmap strings list.
Import ListNotations.
Open Scope string_scope.

(* ------------------------------------------------------------------ *)
(** ** Python string helpers *)

(** [str.isspace] restricted to Latin-1: \t \n \v \f \r, \x1c-\x1f,
    space, \x85 and \xa0. *)
Definition is_ws (c : ascii) : bool :=
  let n := nat_of_ascii c in
  ((9 <=? n) && (n <=? 13))%nat || ((28 <=? n) && (n <=? 32))%nat
  || (n =? 133)%nat || (n =? 160)%nat.

(** [str.lstrip()] *)
Fixpoint lstrip (s : string) : string :=
  match s with
  | EmptyString => EmptyString
  | String c r => if is_ws c then lstrip r else s
  end.

(** [str.rstrip()] *)
Fixpoint rstrip (s : string) : string :=
  match s with
  | EmptyString => EmptyString
  | String c r =>
      match rstrip r with
      | EmptyString => if is_ws c then EmptyString else String c EmptyString
      | r' => String c r'
      end
  end.

(** [str.strip()] *)
Definition py_strip (s : string) : string := rstrip (lstrip s).

(** [s.split("?")[0]]: the part before the first ['?'], or all of [s]. *)
Fixpoint split_query (s : string) : string :=
  match s with
  | EmptyString => EmptyString
  | String c r => if Ascii.eqb c "?"%char then EmptyString else String c (split_query r)
  end.

(** [s.startswith(p)] *)
Definition startswith (s p : string) : bool := String.prefix p s.

(** [s.split("|", 1)] unpacked into two names: [None] is the
    [ValueError] raised when there is no ['|']. *)
Fixpoint split_pipe (s : string) : option (string * string) :=
  match s with
  | EmptyString => None
  | String c r =>
      if Ascii.eqb c "|"%char then Some (EmptyString, r)
      else match split_pipe r with
           | Some (a, b) => Some (String c a, b)
           | None => None
           end
  end.

(* ------------------------------------------------------------------ *)
(** ** SHA-1 ([hashlib.sha1]) and [make_job_id] *)

Module Sha1.
Open Scope Z_scope.

Definition mask32 (x : Z) : Z := Z.land x (Z.ones 32).
Definition add32 (x y : Z) : Z := mask32 (x + y).
Definition rotl (n x : Z) : Z := mask32 (Z.lor (Z.shiftl x n) (Z.shiftr x (32 - n))).
Definition not32 (x : Z) : Z := Z.lxor x (Z.ones 32).

(** Padding: 0x80, zeros up to 56 mod 64, 64-bit big-endian bit length. *)
Definition be_bytes (k : nat) (x : Z) : list Z :=
  map (fun i => Z.land (Z.shiftr x (8 * Z.of_nat (k - 1 - i))) 255) (seq 0 k).

Definition pad (msg : list Z) : list Z :=
  let len := length msg in
  let zeros := ((119 - len mod 64) mod 64)%nat in
  msg ++ [128] ++ repeat 0 zeros ++ be_bytes 8 (8 * Z.of_nat len).

Fixpoint words (fuel : nat) (bs : list Z) : list Z :=
  match fuel, bs with
  | S f, b0 :: b1 :: b2 :: b3 :: r =>
      (Z.lor (Z.shiftl b0 24) (Z.lor (Z.shiftl b1 16) (Z.lor (Z.shiftl b2 8) b3)))
        :: words f r
  | _, _ => []
  end.

Fixpoint schedule (k : nat) (w : list Z) : list Z :=
  match k with
  | O => w
  | S k' =>
      let n := length w in
      let x := rotl 1 (Z.lxor (Z.lxor (nth (n - 3) w 0) (nth (n - 8) w 0))
                              (Z.lxor (nth (n - 14) w 0) (nth (n - 16) w 0))) in
      schedule k' (w ++ [x])
  end.

Definition fk (t : nat) (b c d : Z) : Z * Z :=
  if (t <? 20)%nat then (Z.lor (Z.land b c) (Z.land (not32 b) d), 1518500249)
  else if (t <? 40)%nat then (Z.lxor b (Z.lxor c d), 1859775393)
  else if (t <? 60)%nat then
    (Z.lor (Z.lor (Z.land b c) (Z.land b d)) (Z.land c d), 2400959708)
  else (Z.lxor b (Z.lxor c d), 3395469782).

Definition round (st : Z * Z * Z * Z * Z) (tw : nat * Z) : Z * Z * Z * Z * Z :=
  let '(a, b, c, d, e) := st in
  let '(t, w) := tw in
  let '(f, k) := fk t b c d in
  let temp := add32 (add32 (add32 (add32 (rotl 5 a) f) e) k) w in
  (temp, a, rotl 30 b, c, d).

Definition compress (h : Z * Z * Z * Z * Z) (block : list Z) : Z * Z * Z * Z * Z :=
  let w := schedule 64 (words 16 block) in
  let '(a, b, c, d, e) := fold_left round (combine (seq 0 80) w) h in
  let '(h0, h1, h2, h3, h4) := h in
  (add32 h0 a, add32 h1 b, add32 h2 c, add32 h3 d, add32 h4 e).

Fixpoint blocks (fuel : nat) (bs : list Z) : list (list Z) :=
  match fuel with
  | O => []
  | S f => match bs with [] => [] | _ => firstn 64 bs :: blocks f (skipn 64 bs) end
  end.

Definition h_init : Z * Z * Z * Z * Z :=
  (1732584193, 4023233417, 2562383102, 271733878, 3285377520).

Definition digest (msg : list Z) : list Z :=
  let p := pad msg in
  let '(h0, h1, h2, h3, h4) := fold_left compress (blocks (length p) p) h_init in
  concat (map (be_bytes 4) [h0; h1; h2; h3; h4]).

Definition hex_digit (n : Z) : ascii :=
  if n <? 10 then ascii_of_nat (48 + Z.to_nat n) else ascii_of_nat (87 + Z.to_nat n).

(** [.hexdigest()] *)
Definition hexdigest (msg : list Z) : string :=
  fold_right (fun b s => String (hex_digit (Z.shiftr b 4)) (String (hex_digit (Z.land b 15)) s))
    EmptyString (digest msg).

End Sha1.

(** [s.encode("utf-8")] for Latin-1 code points. *)
Definition utf8_encode (s : string) : list Z :=
  flat_map (fun c =>
    let n := Z.of_nat (nat_of_ascii c) in
    if (n <? 128)%Z then [n]
    else [Z.lor 192 (Z.shiftr n 6); Z.lor 128 (Z.land n 63)]) (list_ascii_of_string s).

(** [make_job_id(url) = sha1(url.encode("utf-8")).hexdigest()[:12]] *)
Definition make_job_id (url : string) : string :=
  substring 0 12 (Sha1.hexdigest (utf8_encode url)).

Example sha1_abc :
  Sha1.hexdigest (utf8_encode "abc") = "a9993e364706816aba3e25717850c26c9cd0d89d".
Proof. vm_compute. reflexivity. Qed.

Example sha1_empty :
  Sha1.hexdigest (utf8_encode "") = "da39a3ee5e6b4b0d3255bfef95601890afd80709".
Proof. vm_compute. reflexivity. Qed.

Example sha1_two_blocks :
  Sha1.hexdigest (utf8_encode "abcdbcdecdefdefgefghfghighijhijkijkljklmklmnlmnomnopnopq")
  = "84983e441c3bd26ebaae4aa1f95129e5e54670f1".
Proof. vm_compute. reflexivity. Qed.

(* ------------------------------------------------------------------ *)
(** ** The job store ([storage.py]) *)

(** The values the code writes into the [status] column. *)
Inductive status :=
| pending_interest | generating | pending_send | sent | ignored | error.

Global Instance status_eq_dec : EqDecision status.
Proof. solve_decision. Defined.

(** One row of the [jobs] table. [created_at] is the value of
    [datetime.utcnow()] at the write, kept abstract as a number. *)
Record job := mk_job {
  job_id : string;
  url : string;
  title : string;
  description : string;
  budget : string;
  date : string;
  proposal : string;
  job_status : status;
  created_at : nat
}.

Definition with_status (s : status) (j : job) : job :=
  mk_job (job_id j) (url j) (title j) (description j) (budget j) (date j)
    (proposal j) s (created_at j).

Definition with_proposal (p : string) (s : status) (j : job) : job :=
  mk_job (job_id j) (url j) (title j) (description j) (budget j) (date j)
    p s (created_at j).

(** The table, keyed by [job_id] (PRIMARY KEY). *)
Abbreviation store := (gmap string job).

(** [upsert_job]: [INSERT OR REPLACE] of the whole row. *)
Definition upsert_job (now : nat) (jid u t d b dt p : string) (s : status)
    (db : store) : store :=
  <[jid := mk_job jid u t d b dt p s now]> db.

(** [get_job] *)
Definition get_job (jid : string) (db : store) : option job := db !! jid.

(** [set_status]: [UPDATE jobs SET status=? WHERE job_id=?]. *)
Definition set_status (jid : string) (s : status) (db : store) : store :=
  alter (with_status s) jid db.

(** [set_proposal]: [UPDATE jobs SET proposal=?, status=? WHERE job_id=?]. *)
Definition set_proposal (jid p : string) (s : status) (db : store) : store :=
  alter (with_proposal p s) jid db.

(* ------------------------------------------------------------------ *)
(** ** Ingestion ([proposal_pipeline.handle_new_job]) *)

(** A raw job dict as produced by the scraper: [None] is a missing key
    or a [None] value. *)
Record raw_job := mk_raw {
  raw_url : option string;
  raw_title : option string;
  raw_short_description : option string;
  raw_budget : option string;
  raw_date : option string
}.

(** A queue entry [(job, job_id)]. *)
Definition entry : Type := raw_job * string.

(** The part of [handle_new_job] that normalises the url:
    [(job.get("url") or "").strip()]. *)
Definition trimmed_url (rj : raw_job) : string :=
  py_strip (default "" (raw_url rj)).

(** The guard [not url or not url.startswith("http")]. *)
Definition url_accepted (u : string) : bool :=
  negb (String.eqb u "") && startswith u "http".

(** [url.split("?")[0]] then [make_job_id]. *)
Definition derive_id (raw : string) : string :=
  make_job_id (split_query (py_strip raw)).

Section Ingestion.

(** The text extraction of BeautifulSoup's [get_text(" ", strip=True)],
    an external library. *)
Variable bs_get_text : string -> string.

(** [strip_html]: [if not text: return ""]. *)
Definition strip_html (t : option string) : string :=
  match t with
  | None | Some EmptyString => ""
  | Some s => bs_get_text s
  end.

(** [handle_new_job(job)]: returns the new table and the entries handed
    to the queue ([_queue.put_nowait] on an unbounded queue never fails).
    [enabled] is [telegram_enabled()], [now] the clock at [upsert_job]. *)
Definition handle_new_job (enabled : bool) (now : nat) (rj : raw_job)
    (db : store) : store * list entry :=
  let u := trimmed_url rj in
  if negb (url_accepted u) then (db, [])
  else
    let u := split_query u in
    let jid := make_job_id u in
    let db' := upsert_job now jid u (strip_html (raw_title rj))
                 (strip_html (raw_short_description rj)) (strip_html (raw_budget rj))
                 (strip_html (raw_date rj)) "" pending_interest db in
    if negb enabled then (db', []) else (db', [(rj, jid)]).

End Ingestion.

(* ------------------------------------------------------------------ *)
(** ** The review state machine ([telegram_bot.on_callback]) *)

(** The inline keyboards: [keyboard_send] and [keyboard_interest]. *)
Inductive keyboard := kb_send (jid : string) | kb_interest (jid : string).

(** The replies the handler posts to the chat. *)
Inductive reply_msg :=
| msg_not_found      (* "No encontré el trabajo en la DB." *)
| msg_ignored        (* "Proyecto ignorado." *)
| msg_generating     (* "Generando propuesta..." *)
| msg_no_proposal    (* "No hay propuesta generada. ..." *)
| msg_opening        (* "Abriendo Workana ... y enviando la propuesta..." *)
| msg_sent_ok        (* "Propuesta enviada correctamente en Workana." *)
| msg_send_error.    (* "Error al enviar la propuesta." *)

(** Observable effects of the handler, in order. *)
Inductive event :=
| ev_answer                                (* query.answer() *)
| ev_reply (m : reply_msg)                 (* query.message.reply_text *)
| ev_edit_text (j : job) (kb : keyboard)   (* edit_message_text(build_message_with_proposal(j)) *)
| ev_edit_markup (kb : option keyboard)    (* edit_message_reply_markup *)
| ev_generate (payload : job)              (* generar_propuesta(payload) *)
| ev_submit (u p : string).                (* send_proposal_to_workana(u, p) *)

(** What the AI-draft collaborator does when called. *)
Inductive gen_outcome := gen_raises | gen_returns (r : option string).

(** What the marketplace-submission collaborator does when called. *)
Inductive sub_outcome := sub_raises | sub_returns (ok : bool).

(** A state and exception monad over the table and the event trace. *)
Inductive result (A : Type) := Ok (a : A) | Exn.
Arguments Ok {A} a.
Arguments Exn {A}.

Record cb_state := mk_cb { cb_db : store; cb_trace : list event }.

Definition M (A : Type) : Type := cb_state -> cb_state * result A.

Definition ret {A} (a : A) : M A := fun st => (st, Ok a).
Definition bind {A B} (m : M A) (k : A -> M B) : M B :=
  fun st => match m st with
            | (st', Ok a) => k a st'
            | (st', Exn) => (st', Exn)
            end.
Definition raise {A} : M A := fun st => (st, Exn).

Notation "x <- m ;; k" := (bind m (fun x => k))
  (at level 100, m at next level, k at level 200).
Notation "m ;;; k" := (bind m (fun _ => k))
  (at level 100, k at level 200).

Definition emit (e : event) : M unit :=
  fun st => (mk_cb (cb_db st) (cb_trace st ++ [e]), Ok tt).
Definition db_read {A} (f : store -> A) : M A := fun st => (st, Ok (f (cb_db st))).
Definition db_write (f : store -> store) : M unit :=
  fun st => (mk_cb (f (cb_db st)) (cb_trace st), Ok tt).

(** The call [generar_propuesta(payload)], awaited if it is a coroutine. *)
Definition call_generate (payload : job) (g : gen_outcome) : M (option string) :=
  emit (ev_generate payload) ;;;
  match g with gen_raises => raise | gen_returns r => ret r end.

(** The call [await send_proposal_to_workana(url, proposal)]. *)
Definition call_submit (u p : string) (o : sub_outcome) : M bool :=
  emit (ev_submit u p) ;;;
  match o with sub_raises => raise | sub_returns ok => ret ok end.

(** The payload dict passed to the generator: title, description,
    budget, date and url of the row (the other fields are not read). *)
Definition payload_of (j : job) : job := j.

(** [on_callback(update, context)] for a button press carrying [data]. *)
Definition on_callback (data : string) (g : gen_outcome) (o : sub_outcome) : M unit :=
  emit ev_answer ;;;
  match split_pipe data with
  | None => raise
  | Some (action, jid) =>
    job0 <- db_read (get_job jid) ;;
    match job0 with
    | None => emit (ev_reply msg_not_found)
    | Some j0 =>
      if String.eqb action "NO" then
        db_write (set_status jid ignored) ;;;
        emit (ev_edit_markup None) ;;;
        emit (ev_reply msg_ignored)
      else if String.eqb action "INT" then
        j1 <- db_read (get_job jid) ;;
        let j := default j0 j1 in
        if negb (String.eqb (py_strip (proposal j)) "") then
          emit (ev_edit_text j (kb_send jid))
        else
          db_write (set_status jid generating) ;;;
          emit (ev_reply msg_generating) ;;;
          r <- call_generate (payload_of j) g ;;
          let p := py_strip (default "" r) in
          db_write (set_proposal jid p pending_send) ;;;
          j2 <- db_read (get_job jid) ;;
          let j' := default j j2 in
          let j' := with_proposal p (job_status j') j' in
          emit (ev_edit_text j' (kb_send jid))
      else if String.eqb action "OK" then
        j1 <- db_read (get_job jid) ;;
        let j := default j0 j1 in
        let p := py_strip (proposal j) in
        if String.eqb p "" then
          emit (ev_reply msg_no_proposal) ;;;
          emit (ev_edit_markup (Some (kb_interest jid)))
        else
          emit (ev_reply msg_opening) ;;;
          ok <- call_submit (url j) p o ;;
          if ok then
            db_write (set_status jid sent) ;;;
            emit (ev_edit_markup None) ;;;
            emit (ev_reply msg_sent_ok)
          else
            db_write (set_status jid error) ;;;
            emit (ev_reply msg_send_error)
      else ret tt
    end
  end.

(** Running the handler on a table, from an empty trace. *)
Definition run_callback (data : string) (g : gen_outcome) (o : sub_outcome)
    (db : store) : cb_state * result unit :=
  on_callback data g o (mk_cb db []).

(* ------------------------------------------------------------------ *)
(** ** The dispatch queue ([_send_interest], [_sender_worker]) *)

(** Observable effects of the consumer. *)
Inductive dev :=
| dv_attempt (jid : string) (n : nat)   (* bot.send_message, attempt n *)
| dv_delivered (jid : string)           (* send_message returned: return *)
| dv_failed (jid : string) (n : nat)    (* send_message raised, caught *)
| dv_sleep (n : nat)                    (* await asyncio.sleep(attempt) *)
| dv_log_final (jid : string)           (* print("... (final) ...") *)
| dv_worker_error                       (* print("Worker error ...") *)
| dv_task_done.                         (* _queue.task_done() *)

(** The Telegram channel answers each [send_message] in turn: [true] it
    returns, [false] it raises; a channel with no answers left raises. *)
Abbreviation channel := (list bool).

Definition channel_call (ch : channel) : bool * channel :=
  match ch with [] => (false, []) | b :: r => (b, r) end.

(** [for attempt in range(attempt, 4)], with [k] iterations left. *)
Fixpoint send_attempts (k attempt : nat) (jid : string) (ch : channel)
    : list dev * channel :=
  match k with
  | O => ([], ch)
  | S k' =>
      let '(ok, ch1) := channel_call ch in
      if ok then ([dv_attempt jid attempt; dv_delivered jid], ch1)
      else if Nat.eqb attempt 3 then
        ([dv_attempt jid attempt; dv_failed jid attempt; dv_log_final jid], ch1)
      else
        let '(tr, ch2) := send_attempts k' (S attempt) jid ch1 in
        (dv_attempt jid attempt :: dv_failed jid attempt :: dv_sleep attempt :: tr, ch2)
  end.

(** [_send_interest(job, job_id)]: every exception of [send_message] is
    caught inside the loop, so the coroutine always returns. *)
Definition send_interest (e : entry) (ch : channel) : list dev * channel * result unit :=
  let '(tr, ch') := send_attempts 3 1 (snd e) ch in (tr, ch', Ok tt).

(** [_sender_worker()] run until the queue [q] is drained. *)
Fixpoint sender_worker (q : list entry) (ch : channel) : list dev :=
  match q with
  | [] => []
  | e :: q' =>
      let '(tr, ch', r) := send_interest e ch in
      tr ++ (match r with Ok _ => [] | Exn => [dv_worker_error] end)
         ++ [dv_task_done] ++ sender_worker q' ch'
  end.

(** The complete delivery runs of one entry: delivered at attempt 1, 2
    or 3, or three failures and the final log. *)
Definition delivery_runs (jid : string) : list (list dev) :=
  [ [dv_attempt jid 1; dv_delivered jid];
    [dv_attempt jid 1; dv_failed jid 1; dv_sleep 1; dv_attempt jid 2; dv_delivered jid];
    [dv_attempt jid 1; dv_failed jid 1; dv_sleep 1; dv_attempt jid 2; dv_failed jid 2;
     dv_sleep 2; dv_attempt jid 3; dv_delivered jid];
    [dv_attempt jid 1; dv_failed jid 1; dv_sleep 1; dv_attempt jid 2; dv_failed jid 2;
     dv_sleep 2; dv_attempt jid 3; dv_failed jid 3; dv_log_final jid] ].

(** A block of the worker trace that handles exactly one entry, from its
    first attempt to its resolution, then [task_done]. *)
Definition resolved_block (e : entry) (b : list dev) : Prop :=
  exists tr, List.In tr (delivery_runs (snd e)) /\ b = (tr ++ [dv_task_done])%list.

(* ------------------------------------------------------------------ *)
(** ** Reachable tables *)

(** Tables reachable from an empty [jobs.db] by ingestion and button
    presses, with [bs] the text extraction of BeautifulSoup.  Each press
    runs to completion before the next step; [creachable] below also lets
    ingestion land between the database calls of a running press. *)
Inductive reachable (bs : string -> string) : store -> Prop :=
| reach_init : reachable bs ∅
| reach_ingest db en now rj :
    reachable bs db -> reachable bs (fst (handle_new_job bs en now rj db))
| reach_callback db data g o :
    reachable bs db -> reachable bs (cb_db (fst (run_callback data g o db))).

(* ------------------------------------------------------------------ *)
(** ** The bot thread and the scraper thread *)

(** [main.py] runs the bot in a thread of its own and the scraper in the
    main thread, with no lock around [jobs.db]: each [upsert_job] of the
    scraper can land between any two database calls of a running
    [on_callback].  The [Application] is built without
    [concurrent_updates], so the bot handles one button press at a time.

    [bot_pc] is the point a running [on_callback] has reached, just
    before its next database call that the scraper may precede. *)
Inductive bot_pc :=
| pc_idle                                   (* no callback running *)
| pc_no (jid : string)                      (* before [set_status(job_id, "ignored")] *)
| pc_int_read (jid : string) (j0 : job)     (* before [job = get_job(job_id) or job] (INT) *)
| pc_int_mark (jid : string) (j : job)      (* before [set_status(job_id, "generating")] *)
| pc_int_store (jid p : string)             (* before [set_proposal(job_id, proposal, ...)] *)
| pc_ok_read (jid : string) (j0 : job)      (* before [job = get_job(job_id) or job] (OK) *)
| pc_ok_write (jid : string) (s : status).  (* before [set_status(job_id, "sent"/"error")] *)

(** A press with [callback_data] [data]: [query.data.split("|", 1)], the
    first [get_job] and the dispatch on the action. *)
Definition bot_start (data : string) (db : store) : bot_pc :=
  match split_pipe data with
  | None => pc_idle
  | Some (action, jid) =>
    match get_job jid db with
    | None => pc_idle
    | Some j0 =>
      if String.eqb action "NO" then pc_no jid
      else if String.eqb action "INT" then pc_int_read jid j0
      else if String.eqb action "OK" then pc_ok_read jid j0
      else pc_idle
    end
  end.

(** The next database call of the running callback and what follows it
    up to the call after; [g] and [o] are what the generator and the
    submission do when they are called in this stretch. *)
Definition bot_next (g : gen_outcome) (o : sub_outcome) (pc : bot_pc) (db : store)
    : store * bot_pc :=
  match pc with
  | pc_idle => (db, pc_idle)
  | pc_no jid => (set_status jid ignored db, pc_idle)
  | pc_int_read jid j0 =>
      let j := default j0 (get_job jid db) in
      if negb (String.eqb (py_strip (proposal j)) "") then (db, pc_idle)
      else (db, pc_int_mark jid j)
  | pc_int_mark jid j =>
      (set_status jid generating db,
       match g with
       | gen_raises => pc_idle
       | gen_returns r => pc_int_store jid (py_strip (default "" r))
       end)
  | pc_int_store jid p => (set_proposal jid p pending_send db, pc_idle)
  | pc_ok_read jid j0 =>
      let j := default j0 (get_job jid db) in
      let p := py_strip (proposal j) in
      if String.eqb p "" then (db, pc_idle)
      else match o with
           | sub_raises => (db, pc_idle)
           | sub_returns ok => (db, pc_ok_write jid (if ok then sent else error))
           end
  | pc_ok_write jid s => (set_status jid s db, pc_idle)
  end.

(** One step of the two threads: the scraper ingests a job, the bot
    takes a press when idle, the running callback makes its next
    database call, or an awaited Telegram call raises and ends the
    callback (the handler catches nothing). *)
Inductive cstep (bs : string -> string) : store * bot_pc -> store * bot_pc -> Prop :=
| cs_ingest db pc en now rj :
    cstep bs (db, pc) (fst (handle_new_job bs en now rj db), pc)
| cs_press db data :
    cstep bs (db, pc_idle) (db, bot_start data db)
| cs_bot db pc g o :
    cstep bs (db, pc) (bot_next g o pc db)
| cs_abort db pc :
    cstep bs (db, pc) (db, pc_idle).

(** States reachable from an empty [jobs.db] with the bot idle. *)
Inductive creachable (bs : string -> string) : store * bot_pc -> Prop :=
| creach_init : creachable bs (∅, pc_idle)
| creach_step c c' : creachable bs c -> cstep bs c c' -> creachable bs c'.

(* ------------------------------------------------------------------ *)
(** ** The callback data of the keyboards ([keyboard_send], [keyboard_interest]) *)

(** The [callback_data] of the two buttons of each keyboard, in order. *)
Definition keyboard_data (kb : keyboard) : list string :=
  match kb with
  | kb_send jid => ["OK|" ++ jid; "NO|" ++ jid]
  | kb_interest jid => ["INT|" ++ jid; "NO|" ++ jid]
  end.

Definition keyboard_job (kb : keyboard) : string :=
  match kb with kb_send jid | kb_interest jid => jid end.

(* ------------------------------------------------------------------ *)
(** ** More Python string helpers *)

(** [p in s] *)
Fixpoint contains (p s : string) : bool :=
  String.prefix p s ||
  match s with EmptyString => false | String _ r => contains p r end.

(** [s[n:]] *)
Fixpoint str_drop (n : nat) (s : string) : string :=
  match n, s with
  | O, _ => s
  | S _, EmptyString => EmptyString
  | S n', String _ r => str_drop n' r
  end.

(** [s.split(sep)] for a non-empty [sep]; [fuel] bounds the characters read. *)
Fixpoint split_on_fuel (fuel : nat) (sep s : string) : list string :=
  match fuel with
  | O => [s]
  | S f =>
      match s with
      | EmptyString => [EmptyString]
      | String c r =>
          if String.prefix sep s then
            EmptyString :: split_on_fuel f sep (str_drop (String.length sep) s)
          else match split_on_fuel f sep r with
               | [] => [String c EmptyString]
               | h :: t => String c h :: t
               end
      end
  end.

Definition py_split (sep s : string) : list string :=
  split_on_fuel (String.length s) sep s.

(** [s.lstrip(x)], [s.rstrip(x)] and [s.strip(x)] for one character [x]. *)
Fixpoint lstrip_char (x : ascii) (s : string) : string :=
  match s with
  | EmptyString => EmptyString
  | String c r => if Ascii.eqb c x then lstrip_char x r else s
  end.

Fixpoint rstrip_char (x : ascii) (s : string) : string :=
  match s with
  | EmptyString => EmptyString
  | String c r =>
      match rstrip_char x r with
      | EmptyString => if Ascii.eqb c x then EmptyString else String c EmptyString
      | r' => String c r'
      end
  end.

Definition strip_char (x : ascii) (s : string) : string :=
  rstrip_char x (lstrip_char x s).

(** [s.replace(old, new)] for a non-empty [old]: occurrences replaced
    left to right, without overlap. *)
Fixpoint replace_fuel (fuel : nat) (old new s : string) : string :=
  match fuel with
  | O => s
  | S f =>
      match s with
      | EmptyString => EmptyString
      | String c r =>
          if String.prefix old s then new ++ replace_fuel f old new (str_drop (String.length old) s)
          else String c (replace_fuel f old new r)
      end
  end.

Definition py_replace (old new s : string) : string :=
  replace_fuel (String.length s) old new s.

(** [c] occurs in [s]. *)
Fixpoint has_char (x : ascii) (s : string) : bool :=
  match s with
  | EmptyString => false
  | String c r => Ascii.eqb c x || has_char x r
  end.

(** [str(n)] for a non-negative int. *)
Definition digit_char (d : nat) : ascii := ascii_of_nat (48 + d).

Fixpoint digits_fuel (fuel n : nat) (acc : string) : string :=
  match fuel with
  | O => acc
  | S f =>
      let acc' := String (digit_char (n mod 10)) acc in
      if (n <? 10)%nat then acc' else digits_fuel f (n / 10) acc'
  end.

Definition str_of_nat (n : nat) : string := digits_fuel (S n) n EmptyString.

(** [\d] on Latin-1 characters: the ASCII digits (Latin-1 has no other
    decimal digits). *)
Definition is_digit (c : ascii) : bool :=
  let n := nat_of_ascii c in ((48 <=? n) && (n <=? 57))%nat.

Fixpoint digits_len (s : string) : nat :=
  match s with
  | EmptyString => O
  | String c r => if is_digit c then S (digits_len r) else O
  end.

(* ------------------------------------------------------------------ *)
(** ** Marketplace urls ([huntly/workana/sender.py]) *)

(** [to_message_url(u)] *)
Definition to_message_url (u : string) : string :=
  if contains "/messages/bid/" u then
    if negb (contains "tab=" u) then
      let sep := if contains "?" u then "&" else "?" in
      u ++ sep ++ "tab=message&ref=project_view"
    else u
  else if contains "/job/" u then
    let slug := strip_char "/" (split_query (nth 1 (py_split "/job/" u) EmptyString)) in
    "https://www.workana.com/messages/bid/" ++ slug ++ "/?tab=message&ref=project_view"
  else u.

(* ------------------------------------------------------------------ *)
(** ** Pagination ([huntly/workana/scraper.py], [build_page_url]) *)

(** [re.sub(r"page=\d+", repl, s)]: leftmost matches, [\d+] greedy,
    scanning resumes after each match. *)
Fixpoint sub_page_fuel (fuel : nat) (repl s : string) : string :=
  match fuel with
  | O => s
  | S f =>
      match s with
      | EmptyString => EmptyString
      | String c r =>
          let k := digits_len (str_drop 5 s) in
          if String.prefix "page=" s && (0 <? k)%nat then
            repl ++ sub_page_fuel f repl (str_drop (5 + k) s)
          else String c (sub_page_fuel f repl r)
      end
  end.

Definition sub_page (repl s : string) : string := sub_page_fuel (String.length s) repl s.

(** [build_page_url(base_url, page_number)] *)
Definition build_page_url (base_url : string) (page_number : nat) : string :=
  if contains "page=" base_url then sub_page ("page=" ++ str_of_nat page_number) base_url
  else
    let separator := if contains "?" base_url then "&" else "?" in
    base_url ++ separator ++ "page=" ++ str_of_nat page_number.

(* ------------------------------------------------------------------ *)
(** ** The page loop of [scrape] ([huntly/workana/scraper.py]) *)

Section Scrape.

(** The age filter [max_age_hours is not None and
    parse_age_to_hours(job.get("date", "")) > max_age_hours]. *)
Variable too_old : raw_job -> bool.

(** The [for job in page_jobs] loop: returns [new_jobs] in order and the
    updated [seen_urls]. *)
Fixpoint select_new_jobs (page_jobs : list raw_job) (seen_urls : gset string)
    : list raw_job * gset string :=
  match page_jobs with
  | [] => ([], seen_urls)
  | job :: rest =>
      let job_url := trimmed_url job in
      if String.eqb job_url "" || bool_decide (job_url ∈ seen_urls) then
        select_new_jobs rest seen_urls
      else if too_old job then select_new_jobs rest seen_urls
      else
        let '(new_jobs, seen') := select_new_jobs rest ({[job_url]} ∪ seen_urls) in
        (job :: new_jobs, seen')
  end.

End Scrape.

(** [for job in new_jobs: handle_new_job(job)], with one clock value. *)
Fixpoint handle_new_jobs (bs : string -> string) (enabled : bool) (now : nat)
    (jobs : list raw_job) (db : store) : store * list entry :=
  match jobs with
  | [] => (db, [])
  | j :: rest =>
      let '(db1, q1) := handle_new_job bs enabled now j db in
      let '(db2, q2) := handle_new_jobs bs enabled now rest db1 in
      (db2, (q1 ++ q2)%list)
  end.

(* ------------------------------------------------------------------ *)
(** ** Post-processing of the AI draft ([huntly/ai/proposal_generator.py]) *)

(** The text [generar_propuesta] returns for the model's message
    [content]; [None] is a [None] content, on which [.strip()] raises. *)
Definition generar_propuesta_text (content : option string) : option string :=
  match content with
  | None => None
  | Some c =>
      let texto := py_strip c in
      let texto := py_replace "]" "" (py_replace "[" "" texto) in
      let texto := py_replace "Tu nombre" "Constantino Di Nisio" texto in
      Some (py_replace "tu nombre" "Constantino Di Nisio" texto)
  end.

(* ------------------------------------------------------------------ *)
(** ** Observations on rows and traces *)

(** The columns of a row that only [upsert_job] writes. *)
Definition fixed_fields (j : job) : string * string * string * string * string * string * nat :=
  (job_id j, url j, title j, description j, budget j, date j, created_at j).

Definition is_attempt (d : dev) : bool :=
  match d with dv_attempt _ _ => true | _ => false end.

(** Number of [send_message] calls in a consumer trace. *)
Definition attempts (tr : list dev) : nat := length (List.filter is_attempt tr).

(* ------------------------------------------------------------------ *)
(** ** URL schemes (RFC 3986), the notion the spec's wording refers to *)

Definition is_alpha (c : ascii) : bool :=
  let n := nat_of_ascii c in ((65 <=? n) && (n <=? 90))%nat || ((97 <=? n) && (n <=? 122))%nat.

Definition is_scheme_char (c : ascii) : bool :=
  let n := nat_of_ascii c in
  is_alpha c || ((48 <=? n) && (n <=? 57))%nat || (n =? 43)%nat || (n =? 45)%nat || (n =? 46)%nat.

Definition to_lower (c : ascii) : ascii :=
  let n := nat_of_ascii c in
  if ((65 <=? n) && (n <=? 90))%nat then ascii_of_nat (n + 32) else c.

Fixpoint lower (s : string) : string :=
  match s with EmptyString => EmptyString | String c r => String (to_lower c) (lower r) end.

(** The characters before the first [':'], if they are all scheme characters. *)
Fixpoint scheme_prefix (s : string) : option string :=
  match s with
  | EmptyString => None
  | String c r =>
      if Ascii.eqb c ":"%char then Some EmptyString
      else if is_scheme_char c then option_map (String c) (scheme_prefix r) else None
  end.

(** [scheme = ALPHA *( ALPHA / DIGIT / "+" / "-" / "." )] followed by [':']. *)
Definition url_scheme (s : string) : option string :=
  match scheme_prefix s with
  | Some (String c r) => if is_alpha c then Some (String c r) else None
  | _ => None
  end.

(** A url has an http scheme when its (case-insensitive) scheme is
    [http] or [https]. *)
Definition has_http_scheme (s : string) : bool :=
  match url_scheme (py_strip s) with
  | Some sc => String.eqb (lower sc) "http" || String.eqb (lower sc) "https"
  | None => false
  end.

(* ------------------------------------------------------------------ *)
(** ** Concrete inputs *)

(** BeautifulSoup on plain text returns the text. *)
Definition bs_plain (s : string) : string := s.

(** The spec's scenario job. *)
Definition raw42 : raw_job :=
  mk_raw (Some "https://x.test/job/42?ref=abc") (Some "T") None None None.

Definition raw_with_url (u : string) : raw_job := mk_raw (Some u) (Some "T") None None None.

(** [make_job_id("https://x.test/job/42")], as [hashlib] computes it. *)
Definition id42 : string := "3a55e8f8da82".

(** The table after ingesting [raw42] once. *)
Definition db_new : store := fst (handle_new_job bs_plain true 0 raw42 ∅).

(** ... then pressing "Me interesa" with the generator returning a draft. *)
Definition db_drafted : store :=
  cb_db (fst (run_callback ("INT|" ++ id42) (gen_returns (Some " draft text "))
                (sub_returns true) db_new)).

(** The scenario under interleaving: "Enviar propuesta" is pressed on
    the drafted row and the submission returns [True]; while it runs, the
    scraper ingests the same job again; then [set_status(job_id, "sent")]
    runs. *)
Definition conf_submitting : store * bot_pc :=
  bot_next (gen_returns None) (sub_returns true)
    (bot_start ("OK|" ++ id42) db_drafted) db_drafted.

Definition db_sent_reset : store :=
  fst (bot_next (gen_returns None) (sub_returns true) conf_submitting.2
         (fst (handle_new_job bs_plain true 1 raw42 conf_submitting.1))).

(* ------------------------------------------------------------------ *)
(** ** Lemmas on the string helpers *)

Lemma py_strip_empty : py_strip "" = "".
Proof. reflexivity. Qed.

Lemma lstrip_idem s : lstrip (lstrip s) = lstrip s.
Proof.
  induction s as [|c r IH]; simpl; [reflexivity|].
  destruct (is_ws c) eqn:Hc; [exact IH|]. simpl. rewrite Hc. reflexivity.
Qed.

Lemma lstrip_head s :
  lstrip s = EmptyString \/ exists c r, lstrip s = String c r /\ is_ws c = false.
Proof.
  induction s as [|c r IH]; simpl; [left; reflexivity|].
  destruct (is_ws c) eqn:Hc; [exact IH|]. right. eauto.
Qed.

Lemma rstrip_cons c r :
  rstrip (String c r) =
  match rstrip r with
  | EmptyString => if is_ws c then EmptyString else String c EmptyString
  | r' => String c r'
  end.
Proof. reflexivity. Qed.

Lemma rstrip_idem s : rstrip (rstrip s) = rstrip s.
Proof.
  induction s as [|c r IH]; [reflexivity|].
  rewrite (rstrip_cons c r). destruct (rstrip r) as [|d t] eqn:Hr.
  - destruct (is_ws c) eqn:Hc; [reflexivity|]. rewrite rstrip_cons. simpl. rewrite Hc. reflexivity.
  - rewrite rstrip_cons, IH. reflexivity.
Qed.

Lemma rstrip_cons_nonws c r :
  is_ws c = false -> rstrip (String c r) = String c (rstrip r).
Proof. intros Hc. simpl. destruct (rstrip r); [rewrite Hc|]; reflexivity. Qed.

Lemma py_strip_idem s : py_strip (py_strip s) = py_strip s.
Proof.
  unfold py_strip.
  destruct (lstrip_head s) as [H|(c & r & H & Hc)]; rewrite H; [reflexivity|].
  rewrite rstrip_cons_nonws by exact Hc. simpl. rewrite Hc.
  rewrite <- rstrip_cons_nonws by exact Hc. apply rstrip_idem.
Qed.

Lemma py_strip_nonempty s : py_strip s <> "" -> s <> "".
Proof. intros H ->. apply H. reflexivity. Qed.

Lemma split_query_no_qmark s n : String.get n (split_query s) <> Some "?"%char.
Proof.
  revert n. induction s as [|c r IH]; intros n; simpl; [discriminate|].
  destruct (Ascii.eqb c "?"%char) eqn:Hc; [discriminate|].
  destruct n as [|n]; simpl; [|apply IH].
  intros [= ->]. discriminate Hc.
Qed.

(* ------------------------------------------------------------------ *)
(** ** What a button press can do to the table *)

Ltac run_monad :=
  unfold run_callback, on_callback, call_generate, call_submit, bind, emit,
    db_read, db_write, ret, raise, get_job; cbn.

Lemma on_callback_db data g o db :
  let db' := cb_db (fst (run_callback data g o db)) in
  db' = db \/
  (exists jid, db' = set_status jid ignored db) \/
  (exists jid j, db !! jid = Some j /\ py_strip (proposal j) = "" /\
     db' = set_status jid generating db) \/
  (exists jid j r, db !! jid = Some j /\ py_strip (proposal j) = "" /\
     db' = set_proposal jid (py_strip r) pending_send (set_status jid generating db)) \/
  (exists jid j s, db !! jid = Some j /\ py_strip (proposal j) <> "" /\
     (s = sent \/ s = error) /\ db' = set_status jid s db).
Proof.
  run_monad.
  destruct (split_pipe data) as [[action jid]|]; cbn; [|left; reflexivity].
  destruct (db !! jid) as [j|] eqn:Hj; cbn; [|left; reflexivity].
  destruct (String.eqb action "NO"); cbn; [right; left; eauto|].
  destruct (String.eqb action "INT"); cbn; rewrite ?Hj; cbn.
  - destruct (String.eqb (py_strip (proposal j)) "") eqn:Hp; cbn;
      [|left; reflexivity].
    apply String.eqb_eq in Hp.
    destruct g as [|r]; cbn.
    + right; right; left; eauto.
    + right; right; right; left. exists jid, j, (default "" r). eauto.
  - destruct (String.eqb action "OK"); cbn; [|left; reflexivity].
    rewrite ?Hj; cbn.
    destruct (String.eqb (py_strip (proposal j)) "") eqn:Hp; cbn;
      [left; reflexivity|].
    apply String.eqb_neq in Hp.
    destruct o as [|[|]]; cbn.
    + left; reflexivity.
    + do 4 right. exists jid, j, sent. eauto.
    + do 4 right. exists jid, j, error. eauto.
Qed.

(* ------------------------------------------------------------------ *)
(** ** The invariant of reachable tables *)

(** What every row of a reachable table satisfies: the stored proposal
    is already stripped, it is empty at [pending_interest] and
    [generating], and non-empty at [sent] and [error]. *)
Definition job_ok (j : job) : Prop :=
  py_strip (proposal j) = proposal j /\
  ((job_status j = pending_interest \/ job_status j = generating) -> proposal j = "") /\
  ((job_status j = sent \/ job_status j = error) -> proposal j <> "").

Definition table_ok (db : store) : Prop := map_Forall (fun _ j => job_ok j) db.

Lemma map_Forall_alter_2 (P : string -> job -> Prop) (f : job -> job) jid (db : store) :
  map_Forall P db -> (forall x, db !! jid = Some x -> P jid x -> P jid (f x)) ->
  map_Forall P (alter f jid db).
Proof.
  intros HP Hf k y Hk. apply lookup_alter_Some in Hk as [[<- (x & Hx & ->)]|[_ Hk]].
  - apply Hf; [exact Hx|]. exact (HP _ _ Hx).
  - exact (HP _ _ Hk).
Qed.

Lemma table_ok_set_ignored jid db : table_ok db -> table_ok (set_status jid ignored db).
Proof.
  intros H. apply map_Forall_alter_2; [exact H|].
  intros x _ (H1 & H2 & H3). split; [exact H1|]. cbn. split; intros [E|E]; discriminate E.
Qed.

Lemma table_ok_set_generating jid j db :
  table_ok db -> db !! jid = Some j -> py_strip (proposal j) = "" ->
  table_ok (set_status jid generating db).
Proof.
  intros H Hj Hp. apply map_Forall_alter_2; [exact H|].
  intros x Hx (H1 & H2 & H3). rewrite Hj in Hx. injection Hx as <-.
  unfold job_ok; cbn. split; [exact H1|]. split; [intros _; congruence|]. intros [E|E]; discriminate E.
Qed.

Lemma table_ok_set_proposal jid r db :
  table_ok db -> table_ok (set_proposal jid (py_strip r) pending_send db).
Proof.
  intros H. apply map_Forall_alter_2; [exact H|].
  intros x _ _. unfold job_ok; cbn. split; [apply py_strip_idem|]. split; intros [E|E]; discriminate E.
Qed.

Lemma table_ok_set_final jid j s db :
  table_ok db -> db !! jid = Some j -> py_strip (proposal j) <> "" ->
  (s = sent \/ s = error) -> table_ok (set_status jid s db).
Proof.
  intros H Hj Hp Hs. apply map_Forall_alter_2; [exact H|].
  intros x Hx (H1 & H2 & H3). rewrite Hj in Hx. injection Hx as <-.
  unfold job_ok; cbn. split; [exact H1|].
  split; [intros [E|E]; destruct Hs; subst; discriminate|].
  intros _. apply py_strip_nonempty. exact Hp.
Qed.

Lemma table_ok_handle_new_job bs en now rj db :
  table_ok db -> table_ok (fst (handle_new_job bs en now rj db)).
Proof.
  intros H. unfold handle_new_job.
  destruct (negb (url_accepted (trimmed_url rj))); [exact H|].
  destruct (negb en); cbn; apply map_Forall_insert_2; try exact H;
    (split; [reflexivity|split; [reflexivity|intros [E|E]; discriminate E]]).
Qed.

Lemma table_ok_callback data g o db :
  table_ok db -> table_ok (cb_db (fst (run_callback data g o db))).
Proof.
  intros H.
  destruct (on_callback_db data g o db) as
    [E|[(jid & E)|[(jid & j & Hj & Hp & E)|[(jid & j & r & Hj & Hp & E)|
      (jid & j & s & Hj & Hp & Hs & E)]]]]; rewrite E.
  - exact H.
  - apply table_ok_set_ignored, H.
  - eapply table_ok_set_generating; eauto.
  - apply table_ok_set_proposal. eapply table_ok_set_generating; eauto.
  - eapply table_ok_set_final; eauto.
Qed.

Lemma reachable_table_ok bs db : reachable bs db -> table_ok db.
Proof.
  induction 1.
  - apply map_Forall_empty.
  - apply table_ok_handle_new_job; assumption.
  - apply table_ok_callback; assumption.
Qed.

(** What every row satisfies also when ingestion interleaves with a
    callback: the stored proposal is stripped, and it is empty at
    [pending_interest] and [generating]. *)
Definition cjob_ok (j : job) : Prop :=
  py_strip (proposal j) = proposal j /\
  ((job_status j = pending_interest \/ job_status j = generating) -> proposal j = "").

(** What the running callback carries: before [set_status(...,
    "generating")] the row has an empty proposal, the proposal about to be
    stored is stripped, and the final status is [sent] or [error]. *)
Definition pc_ok (db : store) (pc : bot_pc) : Prop :=
  match pc with
  | pc_int_mark jid _ => forall j, db !! jid = Some j -> proposal j = ""
  | pc_int_store _ p => py_strip p = p
  | pc_ok_write _ s => s = sent \/ s = error
  | _ => True
  end.

Definition conf_ok (c : store * bot_pc) : Prop :=
  map_Forall (fun _ j => cjob_ok j) c.1 /\ pc_ok c.1 c.2.

Lemma conf_ok_ingest bs en now rj db pc :
  conf_ok (db, pc) -> conf_ok (fst (handle_new_job bs en now rj db), pc).
Proof.
  intros [Ht Hp]. unfold handle_new_job.
  destruct (negb (url_accepted (trimmed_url rj))); [split; assumption|].
  destruct (negb en); unfold conf_ok, upsert_job; cbn; split.
  1, 3: apply map_Forall_insert_2; [split; [reflexivity|intros _; reflexivity]|exact Ht].
  all: destruct pc; cbn in *; try exact Hp;
    intros x Hx; apply lookup_insert_Some in Hx as [[_ <-]|[_ Hx]]; [reflexivity|exact (Hp x Hx)].
Qed.

Lemma conf_ok_start data db :
  conf_ok (db, pc_idle) -> conf_ok (db, bot_start data db).
Proof.
  intros [Ht _]. split; [exact Ht|]. cbn. unfold bot_start.
  destruct (split_pipe data) as [[action jid]|]; [|exact I].
  destruct (get_job jid db); [|exact I].
  destruct (String.eqb action "NO"); [exact I|].
  destruct (String.eqb action "INT"); [exact I|].
  destruct (String.eqb action "OK"); exact I.
Qed.

Lemma conf_ok_next g o pc db :
  conf_ok (db, pc) -> conf_ok (bot_next g o pc db).
Proof.
  intros [Ht Hp]. cbn in Ht, Hp.
  destruct pc as [|jid|jid j0|jid j|jid p|jid j0|jid s]; cbn.
  - split; [exact Ht|exact I].
  - split; [|exact I]. apply map_Forall_alter_2; [exact Ht|].
    intros x _ (H1 & H2). split; [exact H1|]. cbn. intros [E|E]; discriminate E.
  - destruct (String.eqb (py_strip (proposal (default j0 (get_job jid db)))) "") eqn:E;
      unfold conf_ok, pc_ok; cbn [fst snd negb]; (split; [exact Ht|]); [|exact I].
    apply String.eqb_eq in E. intros x Hx. unfold get_job in E. rewrite Hx in E. cbn in E.
    destruct (Ht jid x Hx) as (H1 & _). rewrite <- H1. exact E.
  - split.
    + apply map_Forall_alter_2; [exact Ht|].
      intros x Hx (H1 & _). split; [exact H1|]. intros _. exact (Hp x Hx).
    + destruct g as [|r]; cbn; [exact I|]. apply py_strip_idem.
  - split; [|exact I]. apply map_Forall_alter_2; [exact Ht|].
    intros x _ _. split; [exact Hp|]. cbn. intros [E|E]; discriminate E.
  - set (p := py_strip (proposal (default j0 (get_job jid db)))).
    destruct (String.eqb p "") ; [split; [exact Ht|exact I]|].
    destruct o as [|[|]]; unfold conf_ok, pc_ok; cbn [fst snd]; split; try exact Ht; auto.
  - split; [|exact I]. apply map_Forall_alter_2; [exact Ht|].
    intros x _ (H1 & _). split; [exact H1|]. cbn.
    intros [E|E]; destruct Hp; subst; discriminate.
Qed.

Lemma creachable_conf_ok bs c : creachable bs c -> conf_ok c.
Proof.
  induction 1 as [|c c' _ IH Hs].
  - split; [apply map_Forall_empty|exact I].
  - destruct Hs.
    + apply conf_ok_ingest, IH.
    + apply conf_ok_start, IH.
    + apply conf_ok_next, IH.
    + split; [exact (proj1 IH)|exact I].
Qed.

Lemma creach_next bs g o db pc :
  creachable bs (db, pc) -> creachable bs (bot_next g o pc db).
Proof. intros H. exact (creach_step _ _ _ H (cs_bot bs db pc g o)). Qed.

(** Each button press run without interleaving, as in [reachable], is a
    run of the two threads in which the scraper stays still. *)
Lemma creach_callback bs db data g o :
  creachable bs (db, pc_idle) ->
  creachable bs (cb_db (fst (run_callback data g o db)), pc_idle).
Proof.
  intros H0.
  pose proof (creach_step _ _ _ H0 (cs_press bs db data)) as H1.
  unfold bot_start, get_job in H1. run_monad.
  destruct (split_pipe data) as [[action jid]|]; cbn; [|exact H0].
  destruct (db !! jid) as [j|] eqn:Hj; cbn; [|exact H0].
  destruct (String.eqb action "NO"); cbn.
  { exact (creach_next bs g o _ _ H1). }
  destruct (String.eqb action "INT"); cbn; rewrite ?Hj; cbn.
  - pose proof (creach_next bs g o _ _ H1) as H2. cbn in H2. unfold get_job in H2. rewrite Hj in H2. cbn in H2.
    destruct (String.eqb (py_strip (proposal j)) "") eqn:Hp; cbn in H2 |- *; [|exact H2].
    pose proof (creach_next bs g o _ _ H2) as H3. cbn in H3.
    destruct g as [|r]; cbn in H3 |- *; [exact H3|].
    exact (creach_next bs gen_raises o _ _ H3).
  - destruct (String.eqb action "OK"); cbn; [|exact H0].
    rewrite ?Hj; cbn.
    pose proof (creach_next bs g o _ _ H1) as H2. cbn in H2. unfold get_job in H2. rewrite Hj in H2. cbn in H2.
    destruct (String.eqb (py_strip (proposal j)) "") eqn:Hp; cbn in H2 |- *; [exact H2|].
    destruct o as [|[|]]; cbn in H2 |- *; [exact H2| |];
      exact (creach_next bs g sub_raises _ _ H2).
Qed.

Lemma reachable_creachable bs db : reachable bs db -> creachable bs (db, pc_idle).
Proof.
  induction 1 as [|db en now rj _ IH|db data g o _ IH].
  - apply creach_init.
  - exact (creach_step _ _ _ IH (cs_ingest bs db pc_idle en now rj)).
  - apply creach_callback, IH.
Qed.

Example derive_id_raw42 : derive_id "https://x.test/job/42?ref=abc" = id42.
Proof. vm_compute. reflexivity. Qed.

Example db_new_row :
  db_new !! id42 = Some (mk_job id42 "https://x.test/job/42" "T" "" "" "" "" pending_interest 0).
Proof. vm_compute. reflexivity. Qed.

Example db_drafted_row :
  db_drafted !! id42 =
  Some (mk_job id42 "https://x.test/job/42" "T" "" "" "" "draft text" pending_send 0).
Proof. vm_compute. reflexivity. Qed.

(* ------------------------------------------------------------------ *)
(** ** Ingestion lemmas *)

Lemma handle_new_job_accepted bs en now rj db :
  url_accepted (trimmed_url rj) = true ->
  let u := split_query (trimmed_url rj) in
  let jid := derive_id (default "" (raw_url rj)) in
  handle_new_job bs en now rj db =
  (<[jid := mk_job jid u (strip_html bs (raw_title rj))
              (strip_html bs (raw_short_description rj)) (strip_html bs (raw_budget rj))
              (strip_html bs (raw_date rj)) "" pending_interest now]> db,
   if en then [(rj, jid)] else []).
Proof.
  intros H. unfold handle_new_job, upsert_job. rewrite H. cbn.
  destruct en; reflexivity.
Qed.

Lemma handle_new_job_rejected bs en now rj db :
  url_accepted (trimmed_url rj) = false -> handle_new_job bs en now rj db = (db, []).
Proof. intros H. unfold handle_new_job. rewrite H. reflexivity. Qed.

(* ------------------------------------------------------------------ *)
(** ** C1: re-ingestion *)

(** C1 (counterexample).  Ingest the scenario job, draft a proposal, and
    ingest the same job again: the second call resets the row to
    [pending_interest] with an empty proposal, and the two calls enqueue
    two notifications. *)
Lemma C1_reingest_resets :
  let '(db2, q2) := handle_new_job bs_plain true 1 raw42 db_drafted in
  option_map job_status (db_drafted !! id42) = Some pending_send /\
  option_map proposal (db_drafted !! id42) = Some "draft text" /\
  option_map job_status (db2 !! id42) = Some pending_interest /\
  option_map proposal (db2 !! id42) = Some "" /\
  length (snd (handle_new_job bs_plain true 0 raw42 ∅)) + length q2 = 2.
Proof. vm_compute. repeat split; reflexivity. Qed.

(** C1 (amended).  Every accepted call of [handle_new_job] overwrites the
    row of the derived id with status [pending_interest], an empty
    proposal and a fresh [created_at], whatever the row held before, and
    enqueues exactly one notification when notifications are enabled
    (none otherwise). *)
Theorem C1_handle_new_job_overwrites bs en now rj db :
  url_accepted (trimmed_url rj) = true ->
  let '(db', q) := handle_new_job bs en now rj db in
  exists j, db' !! derive_id (default "" (raw_url rj)) = Some j /\
    job_status j = pending_interest /\ proposal j = "" /\ created_at j = now /\
    q = (if en then [(rj, derive_id (default "" (raw_url rj)))] else []).
Proof.
  intros H. rewrite (handle_new_job_accepted bs en now rj db H).
  eexists. split; [apply lookup_insert_eq|]. repeat split; reflexivity.
Qed.

Lemma C1_handle_new_job_overwrites_witness :
  url_accepted (trimmed_url raw42) = true /\
  (let '(db', q) := handle_new_job bs_plain true 1 raw42 db_drafted in
   exists j, db' !! derive_id (default "" (raw_url raw42)) = Some j /\
    job_status j = pending_interest /\ proposal j = "" /\ created_at j = 1 /\
    q = [(raw42, derive_id (default "" (raw_url raw42)))]).
Proof.
  split; [vm_compute; reflexivity|].
  exact (C1_handle_new_job_overwrites bs_plain true 1 raw42 db_drafted
           ltac:(vm_compute; reflexivity)).
Defined.

(* ------------------------------------------------------------------ *)
(** ** C8: the derived id *)

(** C8 (counterexample).  ["http://x.test/job/42 "] and
    ["http://x.test/job/42 ?ref=abc"] are equal once the query is cut,
    but [handle_new_job] strips surrounding whitespace first, so it files
    them under two different ids. *)
Lemma C8_whitespace_before_query :
  split_query "http://x.test/job/42 " = split_query "http://x.test/job/42 ?ref=abc" /\
  map snd (snd (handle_new_job bs_plain true 0 (raw_with_url "http://x.test/job/42 ") ∅))
    = ["d708587621b9"] /\
  map snd (snd (handle_new_job bs_plain true 0
                  (raw_with_url "http://x.test/job/42 ?ref=abc") ∅))
    = ["b5d137126857"].
Proof. vm_compute. repeat split; reflexivity. Qed.

Lemma hexdigest_length (msg : list Z) : String.length (Sha1.hexdigest msg) = 40.
Proof.
  unfold Sha1.hexdigest, Sha1.digest.
  destruct (fold_left _ _ _) as [[[[h0 h1] h2] h3] h4]. reflexivity.
Qed.

Lemma substring_0_length n s : n <= String.length s -> String.length (substring 0 n s) = n.
Proof.
  revert s. induction n as [|n IH]; intros [|c s] H; cbn in *; try lia.
  f_equal. apply IH. lia.
Qed.

(** C8 (amended).  The id is the first 12 hex characters of the SHA-1
    of the UTF-8 bytes of the url once surrounding whitespace is
    stripped and the query is cut; two urls whose stripped forms agree
    before the first ['?'] get the same id. *)
Theorem C8_derive_id_congruent (u1 u2 : string) :
  split_query (py_strip u1) = split_query (py_strip u2) ->
  derive_id u1 = derive_id u2 /\
  derive_id u1 = substring 0 12 (Sha1.hexdigest (utf8_encode (split_query (py_strip u1)))) /\
  String.length (derive_id u1) = 12.
Proof.
  intros H. unfold derive_id, make_job_id. rewrite H.
  split; [reflexivity|split; [reflexivity|]].
  apply substring_0_length. rewrite hexdigest_length. lia.
Qed.

Lemma C8_derive_id_congruent_witness :
  split_query (py_strip " https://x.test/job/42?ref=abc")
    = split_query (py_strip "https://x.test/job/42?utm=1 ") /\
  derive_id " https://x.test/job/42?ref=abc" = derive_id "https://x.test/job/42?utm=1 " /\
  derive_id " https://x.test/job/42?ref=abc"
    = substring 0 12 (Sha1.hexdigest (utf8_encode
        (split_query (py_strip " https://x.test/job/42?ref=abc")))) /\
  String.length (derive_id " https://x.test/job/42?ref=abc") = 12.
Proof.
  split; [vm_compute; reflexivity|].
  exact (C8_derive_id_congruent " https://x.test/job/42?ref=abc"
           "https://x.test/job/42?utm=1 " ltac:(vm_compute; reflexivity)).
Defined.

(* ------------------------------------------------------------------ *)
(** ** C9: rejected urls *)

(** C9 (counterexample).  ["httpx.test/job/42"] has no scheme at all,
    yet it starts with ["http"], so [handle_new_job] stores it and
    enqueues a notification. *)
Lemma C9_prefix_without_scheme_accepted :
  has_http_scheme "httpx.test/job/42" = false /\
  handle_new_job bs_plain true 0 (raw_with_url "httpx.test/job/42") ∅ <> (∅, []).
Proof. split; [vm_compute; reflexivity|]. vm_compute. discriminate. Qed.

(** C9 (amended).  A raw job whose whitespace-stripped url is empty
    (also a missing or [None] url) or does not start with the characters
    ["http"] is rejected: the table is returned unchanged, so no row of
    any job is touched, and nothing is enqueued. *)
Theorem C9_handle_new_job_rejects bs en now rj db :
  (trimmed_url rj = "" \/ startswith (trimmed_url rj) "http" = false) ->
  handle_new_job bs en now rj db = (db, []).
Proof.
  intros H. apply handle_new_job_rejected. unfold url_accepted.
  destruct H as [-> | ->]; [reflexivity|]. apply andb_false_r.
Qed.

Lemma C9_handle_new_job_rejects_witness :
  (trimmed_url (raw_with_url " ftp://x.test/job/42") = "" \/
   startswith (trimmed_url (raw_with_url " ftp://x.test/job/42")) "http" = false) /\
  handle_new_job bs_plain true 0 (raw_with_url " ftp://x.test/job/42") db_new = (db_new, []).
Proof.
  split; [right; vm_compute; reflexivity|].
  apply C9_handle_new_job_rejects. right. vm_compute. reflexivity.
Defined.

(* ------------------------------------------------------------------ *)
(** ** C10: the stored url *)

(** C10 (counterexample).  For the raw url ["http://x.test/job/42 "]
    the stored url is ["http://x.test/job/42"], not the raw url cut at
    its first ['?'] (which keeps the trailing space). *)
Lemma C10_stored_url_is_trimmed :
  exists j,
    fst (handle_new_job bs_plain true 0 (raw_with_url "http://x.test/job/42 ") ∅)
      !! "d708587621b9" = Some j /\
    url j = "http://x.test/job/42" /\
    url j <> split_query "http://x.test/job/42 ".
Proof. eexists. split; [vm_compute; reflexivity|]. split; [reflexivity|]. discriminate. Qed.

(** C10 (amended).  For every accepted raw job the row written is built
    from the whitespace-stripped url cut at its first ['?'] and the
    html-stripped title, description, budget and date only; the stored
    url contains no ['?']. *)
Theorem C10_stored_url_query_free bs en now rj db :
  url_accepted (trimmed_url rj) = true ->
  exists j, fst (handle_new_job bs en now rj db) !! derive_id (default "" (raw_url rj)) = Some j /\
    url j = split_query (py_strip (default "" (raw_url rj))) /\
    (forall n, String.get n (url j) <> Some "?"%char) /\
    j = mk_job (derive_id (default "" (raw_url rj))) (url j) (strip_html bs (raw_title rj))
          (strip_html bs (raw_short_description rj)) (strip_html bs (raw_budget rj))
          (strip_html bs (raw_date rj)) "" pending_interest now.
Proof.
  intros H. rewrite (handle_new_job_accepted bs en now rj db H).
  eexists. split; [apply lookup_insert_eq|]. cbn.
  split; [reflexivity|]. split; [apply split_query_no_qmark|reflexivity].
Qed.

Lemma C10_stored_url_query_free_witness :
  url_accepted (trimmed_url raw42) = true /\
  exists j, fst (handle_new_job bs_plain true 0 raw42 ∅)
              !! derive_id (default "" (raw_url raw42)) = Some j /\
    url j = split_query (py_strip (default "" (raw_url raw42))) /\
    (forall n, String.get n (url j) <> Some "?"%char) /\
    j = mk_job (derive_id (default "" (raw_url raw42))) (url j)
          (strip_html bs_plain (raw_title raw42))
          (strip_html bs_plain (raw_short_description raw42))
          (strip_html bs_plain (raw_budget raw42))
          (strip_html bs_plain (raw_date raw42)) "" pending_interest 0.
Proof.
  split; [vm_compute; reflexivity|].
  exact (C10_stored_url_query_free bs_plain true 0 raw42 ∅ ltac:(vm_compute; reflexivity)).
Defined.

(* ------------------------------------------------------------------ *)
(** ** C2: proposal and status of reachable rows *)

(** C2 (counterexample).  If the generator returns no text ([None]),
    "Me interesa" stores an empty proposal with status [pending_send]. *)
Lemma C2_pending_send_with_empty_proposal :
  let db := cb_db (fst (run_callback ("INT|" ++ id42) (gen_returns None)
                          (sub_returns true) db_new)) in
  reachable bs_plain db /\
  option_map job_status (db !! id42) = Some pending_send /\
  option_map proposal (db !! id42) = Some "".
Proof.
  split; [apply reach_callback, reach_ingest, reach_init|].
  vm_compute. split; reflexivity.
Qed.

(** Under interleaving, a row can reach [sent] with an empty proposal:
    the scraper re-ingests the job while the submission runs, and the
    following [set_status(job_id, "sent")] keeps the reset proposal. *)
Lemma sent_with_empty_proposal_interleaved :
  creachable bs_plain (db_sent_reset, pc_idle) /\
  option_map job_status (db_sent_reset !! id42) = Some sent /\
  option_map proposal (db_sent_reset !! id42) = Some "".
Proof.
  assert (H0 : creachable bs_plain (db_drafted, pc_idle)).
  { apply reachable_creachable, reach_callback, reach_ingest, reach_init. }
  pose proof (creach_step _ _ _ H0 (cs_press bs_plain db_drafted ("OK|" ++ id42))) as H1.
  pose proof (creach_next bs_plain (gen_returns None) (sub_returns true) _ _ H1) as H2.
  fold conf_submitting in H2.
  assert (E : conf_submitting = (conf_submitting.1, pc_ok_write id42 sent))
    by (vm_compute; reflexivity).
  rewrite E in H2.
  pose proof (creach_step _ _ _ H2 (cs_ingest bs_plain _ _ true 1 raw42)) as H3.
  pose proof (creach_next bs_plain (gen_returns None) (sub_returns true) _ _ H3) as H4.
  split.
  - unfold db_sent_reset. rewrite E. cbn [fst snd].
    exact H4.
  - vm_compute. split; reflexivity.
Qed.

(** C2 (amended).  In every table reachable by the two threads, ingestion
    interleaving with a callback included: a non-empty proposal occurs
    only with status [pending_send], [sent], [error] or [ignored]; rows
    at [pending_interest] or [generating] have an empty proposal. *)
Theorem C2_reachable_proposal_status bs db pc k j :
  creachable bs (db, pc) -> db !! k = Some j ->
  (proposal j <> "" ->
     job_status j = pending_send \/ job_status j = sent \/
     job_status j = error \/ job_status j = ignored) /\
  ((job_status j = pending_interest \/ job_status j = generating) -> proposal j = "").
Proof.
  intros Hr Hk. destruct (creachable_conf_ok bs _ Hr) as [Ht _].
  destruct (Ht k j Hk) as (_ & H2).
  split; [|exact H2].
  intros Hp. destruct (job_status j) eqn:Hs; auto.
  - exfalso. apply Hp, H2. left. reflexivity.
  - exfalso. apply Hp, H2. right. reflexivity.
Qed.

Lemma C2_reachable_proposal_status_witness :
  creachable bs_plain (db_drafted, pc_idle) /\
  db_drafted !! id42 =
    Some (mk_job id42 "https://x.test/job/42" "T" "" "" "" "draft text" pending_send 0) /\
  ("draft text" <> "" ->
     pending_send = pending_send \/ pending_send = sent \/
     pending_send = error \/ pending_send = ignored) /\
  ((pending_send = pending_interest \/ pending_send = generating) -> "draft text" = "").
Proof.
  assert (Hr : creachable bs_plain (db_drafted, pc_idle))
    by (apply reachable_creachable, reach_callback, reach_ingest, reach_init).
  assert (Hk : db_drafted !! id42 =
    Some (mk_job id42 "https://x.test/job/42" "T" "" "" "" "draft text" pending_send 0))
    by (vm_compute; reflexivity).
  split; [exact Hr|]. split; [exact Hk|].
  exact (C2_reachable_proposal_status bs_plain db_drafted pc_idle id42 _ Hr Hk).
Defined.

(* ------------------------------------------------------------------ *)
(** ** C3: failure of the AI draft *)

(** C3 (counterexample).  On the freshly ingested scenario job, "Me
    interesa" with a generator that raises leaves the row at
    [generating], and the handler ends in the exception. *)
Lemma C3_generator_raises_strands :
  let '(st, r) := run_callback ("INT|" ++ id42) gen_raises (sub_returns true) db_new in
  option_map job_status (cb_db st !! id42) = Some generating /\ r = Exn /\
  cb_trace st = [ev_answer; ev_reply msg_generating;
                 ev_generate (mk_job id42 "https://x.test/job/42" "T" "" "" "" ""
                                pending_interest 0)].
Proof. vm_compute. repeat split; reflexivity. Qed.

(** C3 (amended).  For a job with an empty proposal, "Me interesa" sets
    [generating], posts "Generando propuesta..." and calls the
    generator.  If the generator raises, the exception leaves the
    handler: the row stays at [generating] and nothing more is posted.
    If it returns no text, the row becomes [pending_send] with an empty
    proposal and the message is re-rendered with the send keyboard, with
    no failure message.  From [generating], a further "Me interesa" calls
    the generator again. *)
Theorem C3_interest_generation_failure data jid j g o db :
  split_pipe data = Some ("INT", jid) -> db !! jid = Some j -> proposal j = "" ->
  run_callback data gen_raises o db =
    (mk_cb (set_status jid generating db) [ev_answer; ev_reply msg_generating; ev_generate j],
     Exn) /\
  (forall r, py_strip (default "" r) = "" ->
   exists j', run_callback data (gen_returns r) o db =
     (mk_cb (set_proposal jid "" pending_send (set_status jid generating db))
        [ev_answer; ev_reply msg_generating; ev_generate j; ev_edit_text j' (kb_send jid)],
      Ok tt)) /\
  List.In (ev_generate (with_status generating j))
    (cb_trace (fst (run_callback data g o (set_status jid generating db)))).
Proof.
  intros Hs Hj Hp. split; [|split].
  - run_monad. rewrite Hs. cbn. rewrite Hj. cbn. rewrite Hj. cbn.
    rewrite Hp. reflexivity.
  - intros r Hr. run_monad. rewrite Hs. cbn. rewrite Hj. cbn. rewrite Hj. cbn.
    rewrite Hp. cbn. rewrite Hr. eexists. reflexivity.
  - run_monad. rewrite Hs. cbn. unfold set_status.
    rewrite lookup_alter_eq, Hj. cbn. rewrite lookup_alter_eq, Hj. cbn. rewrite Hp. cbn.
    destruct g as [|r]; cbn; [right; right; left; reflexivity|].
    right; right; left; reflexivity.
Qed.

Lemma C3_interest_generation_failure_witness :
  split_pipe ("INT|" ++ id42) = Some ("INT", id42) /\
  db_new !! id42 = Some (mk_job id42 "https://x.test/job/42" "T" "" "" "" "" pending_interest 0) /\
  run_callback ("INT|" ++ id42) gen_raises (sub_returns true) db_new =
    (mk_cb (set_status id42 generating db_new)
       [ev_answer; ev_reply msg_generating;
        ev_generate (mk_job id42 "https://x.test/job/42" "T" "" "" "" "" pending_interest 0)],
     Exn).
Proof.
  assert (Hs : split_pipe ("INT|" ++ id42) = Some ("INT", id42)) by reflexivity.
  assert (Hj : db_new !! id42 =
    Some (mk_job id42 "https://x.test/job/42" "T" "" "" "" "" pending_interest 0))
    by (vm_compute; reflexivity).
  split; [exact Hs|]. split; [exact Hj|].
  exact (proj1 (C3_interest_generation_failure _ _ _ gen_raises (sub_returns true) _
                  Hs Hj eq_refl)).
Defined.

(* ------------------------------------------------------------------ *)
(** ** C4: failure of the marketplace submission *)

(** C4 (counterexample).  "Enviar propuesta" on the drafted scenario job
    with a submission that raises: the exception leaves the handler and
    the row stays at [pending_send], not [error]. *)
Lemma C4_submission_raises_keeps_pending_send :
  let '(st, r) := run_callback ("OK|" ++ id42) gen_raises sub_raises db_drafted in
  option_map job_status (cb_db st !! id42) = Some pending_send /\ r = Exn.
Proof. vm_compute. split; reflexivity. Qed.

(** C4 (amended).  For a job whose stripped proposal is non-empty, the
    approve action posts "Abriendo Workana..." and calls the submission
    collaborator exactly once, with no retry inside the handler.  If it
    returns [True] the row becomes [sent]; if it returns [False] the row
    becomes [error] and "Error al enviar la propuesta." is posted; if it
    raises, the exception leaves the handler and the row is unchanged
    (still [pending_send] for a [pending_send] job). *)
Theorem C4_approve_submits_once data jid j g o db :
  split_pipe data = Some ("OK", jid) -> db !! jid = Some j -> py_strip (proposal j) <> "" ->
  let pre := [ev_answer; ev_reply msg_opening; ev_submit (url j) (py_strip (proposal j))] in
  run_callback data g o db =
  match o with
  | sub_raises => (mk_cb db pre, Exn)
  | sub_returns true =>
      (mk_cb (set_status jid sent db) (pre ++ [ev_edit_markup None; ev_reply msg_sent_ok]), Ok tt)
  | sub_returns false =>
      (mk_cb (set_status jid error db) (pre ++ [ev_reply msg_send_error]), Ok tt)
  end.
Proof.
  intros Hs Hj Hp. apply String.eqb_neq in Hp.
  run_monad. rewrite Hs. cbn. rewrite Hj. cbn. rewrite Hj. cbn.
  rewrite Hp. cbn. destruct o as [|[|]]; reflexivity.
Qed.

Lemma C4_approve_submits_once_witness :
  split_pipe ("OK|" ++ id42) = Some ("OK", id42) /\
  db_drafted !! id42 =
    Some (mk_job id42 "https://x.test/job/42" "T" "" "" "" "draft text" pending_send 0) /\
  py_strip "draft text" <> "" /\
  run_callback ("OK|" ++ id42) gen_raises (sub_returns false) db_drafted =
    (mk_cb (set_status id42 error db_drafted)
       [ev_answer; ev_reply msg_opening; ev_submit "https://x.test/job/42" "draft text";
        ev_reply msg_send_error], Ok tt).
Proof.
  assert (Hs : split_pipe ("OK|" ++ id42) = Some ("OK", id42)) by reflexivity.
  assert (Hj : db_drafted !! id42 =
    Some (mk_job id42 "https://x.test/job/42" "T" "" "" "" "draft text" pending_send 0))
    by (vm_compute; reflexivity).
  assert (Hp : py_strip "draft text" <> "") by discriminate.
  split; [exact Hs|]. split; [exact Hj|]. split; [exact Hp|].
  exact (C4_approve_submits_once _ _ _ gen_raises (sub_returns false) _ Hs Hj Hp).
Defined.

(* ------------------------------------------------------------------ *)
(** ** C7: no regeneration once a proposal exists *)

(** C7.  In a reachable table, "Me interesa" on a job with a non-empty
    proposal does not call the generator: it re-renders the stored job
    with the send keyboard and leaves the table unchanged. *)
Theorem C7_interest_no_regeneration bs data jid j g o db :
  reachable bs db -> split_pipe data = Some ("INT", jid) -> db !! jid = Some j ->
  proposal j <> "" ->
  run_callback data g o db = (mk_cb db [ev_answer; ev_edit_text j (kb_send jid)], Ok tt).
Proof.
  intros Hr Hs Hj Hp.
  destruct (reachable_table_ok bs db Hr jid j Hj) as (Hstrip & _ & _).
  rewrite <- Hstrip in Hp. apply String.eqb_neq in Hp.
  run_monad. rewrite Hs. cbn. rewrite Hj. cbn. rewrite Hj. cbn.
  rewrite Hp. reflexivity.
Qed.

Lemma C7_interest_no_regeneration_witness :
  reachable bs_plain db_drafted /\
  run_callback ("INT|" ++ id42) (gen_returns (Some "other")) sub_raises db_drafted =
    (mk_cb db_drafted
       [ev_answer; ev_edit_text
          (mk_job id42 "https://x.test/job/42" "T" "" "" "" "draft text" pending_send 0)
          (kb_send id42)], Ok tt).
Proof.
  assert (Hr : reachable bs_plain db_drafted)
    by (apply reach_callback, reach_ingest, reach_init).
  split; [exact Hr|].
  apply (C7_interest_no_regeneration bs_plain); [exact Hr|reflexivity| |discriminate].
  vm_compute. reflexivity.
Defined.

(* ------------------------------------------------------------------ *)
(** ** The dispatch queue: C5 and C6 *)

Ltac pick_run := repeat (first [left; reflexivity | right]).

Lemma send_interest_runs (e : entry) (ch : channel) :
  let '(tr, _, r) := send_interest e ch in r = Ok tt /\ List.In tr (delivery_runs (snd e)).
Proof.
  destruct e as [rj jid]. unfold send_interest. cbn.
  destruct ch as [|[|] ch1]; cbn; [split; [reflexivity|pick_run]..|].
  destruct ch1 as [|[|] ch2]; cbn; [split; [reflexivity|pick_run]..|].
  destruct ch2 as [|[|] ch3]; cbn; split; [reflexivity|pick_run|reflexivity|pick_run|reflexivity|pick_run].
Qed.

Lemma sender_worker_cons (e : entry) (q : list entry) (ch : channel) :
  exists tr ch', List.In tr (delivery_runs (snd e)) /\
    sender_worker (e :: q) ch = (tr ++ [dv_task_done] ++ sender_worker q ch')%list.
Proof.
  cbn. pose proof (send_interest_runs e ch) as H.
  destruct (send_interest e ch) as [[tr ch'] r]. destruct H as [-> Hin].
  exists tr, ch'. split; [exact Hin|reflexivity].
Qed.

Example worker_scenario_A_B_C :
  let a := (raw42, "a") in let b := (raw42, "b") in let c := (raw42, "c") in
  sender_worker [a; b; c] [false; false; true; true; true] =
  [dv_attempt "a" 1; dv_failed "a" 1; dv_sleep 1; dv_attempt "a" 2; dv_failed "a" 2;
   dv_sleep 2; dv_attempt "a" 3; dv_delivered "a"; dv_task_done;
   dv_attempt "b" 1; dv_delivered "b"; dv_task_done;
   dv_attempt "c" 1; dv_delivered "c"; dv_task_done].
Proof. reflexivity. Qed.

(** C5.  The consumer's trace is the concatenation, in queue order, of
    one block per entry; each block is a complete delivery run of that
    entry alone (its attempts up to success or the third failure),
    followed by [task_done].  So no attempt of a later entry happens
    before an earlier entry is resolved, and attempts never interleave. *)
Theorem C5_sender_worker_fifo (q : list entry) (ch : channel) :
  exists blks, Forall2 resolved_block q blks /\ sender_worker q ch = concat blks.
Proof.
  revert ch. induction q as [|e q IH]; intros ch.
  - exists []. split; [constructor|reflexivity].
  - destruct (sender_worker_cons e q ch) as (tr & ch' & Hin & ->).
    destruct (IH ch') as (blks & HF & Heq).
    exists ((tr ++ [dv_task_done])%list :: blks). split.
    + constructor; [exists tr; split; [exact Hin|reflexivity]|exact HF].
    + cbn. rewrite Heq, <- app_assoc. reflexivity.
Qed.

Lemma delivery_runs_no_worker_error jid tr :
  List.In tr (delivery_runs jid) -> ~ List.In dv_worker_error tr.
Proof.
  intros Hin. cbn in Hin.
  repeat destruct Hin as [<-|Hin]; [..|contradiction]; cbn; intuition discriminate.
Qed.

(** C6.  One delivery makes at most three attempts: delivered at the
    first, second or third, or three failures followed by the final log;
    after failed attempt 1 it sleeps 1, after failed attempt 2 it sleeps
    2, and after the third failure it only logs.  [_send_interest]
    always returns normally, so the worker never reports an error;
    [handle_new_job] only hands the entry to the queue and never sees
    the delivery. *)
Theorem C6_send_interest_retry_policy (e : entry) (ch : channel) (q : list entry) :
  (let '(tr, _, r) := send_interest e ch in
   r = Ok tt /\
   (tr = [dv_attempt (snd e) 1; dv_delivered (snd e)] \/
    tr = [dv_attempt (snd e) 1; dv_failed (snd e) 1; dv_sleep 1;
          dv_attempt (snd e) 2; dv_delivered (snd e)] \/
    tr = [dv_attempt (snd e) 1; dv_failed (snd e) 1; dv_sleep 1;
          dv_attempt (snd e) 2; dv_failed (snd e) 2; dv_sleep 2;
          dv_attempt (snd e) 3; dv_delivered (snd e)] \/
    tr = [dv_attempt (snd e) 1; dv_failed (snd e) 1; dv_sleep 1;
          dv_attempt (snd e) 2; dv_failed (snd e) 2; dv_sleep 2;
          dv_attempt (snd e) 3; dv_failed (snd e) 3; dv_log_final (snd e)])) /\
  ~ List.In dv_worker_error (sender_worker q ch).
Proof.
  split.
  - pose proof (send_interest_runs e ch) as H.
    destruct (send_interest e ch) as [[tr ch'] r]. destruct H as [-> Hin].
    split; [reflexivity|]. cbn in Hin.
    repeat destruct Hin as [<-|Hin]; [..|contradiction]; auto.
  - revert ch. induction q as [|e' q IH]; intros ch; [intros []|].
    destruct (sender_worker_cons e' q ch) as (tr & ch' & Hin & ->).
    intros Hw. apply in_app_or in Hw as [Hw|Hw].
    + exact (delivery_runs_no_worker_error _ _ Hin Hw).
    + destruct Hw as [Hw|Hw]; [discriminate Hw|exact (IH ch' Hw)].
Qed.

(** Sample values, checked against CPython. *)
Example python_samples :
  str_of_nat 0 = "0" /\ str_of_nat 120 = "120" /\
  to_message_url "https://www.workana.com/job/web-app?ref=home" =
    "https://www.workana.com/messages/bid/web-app/?tab=message&ref=project_view" /\
  to_message_url "https://www.workana.com/messages/bid/x?a=1" =
    "https://www.workana.com/messages/bid/x?a=1&tab=message&ref=project_view" /\
  build_page_url "https://w.test/jobs?page=12&x=page=3" 4 = "https://w.test/jobs?page=4&x=page=4" /\
  build_page_url "https://w.test/jobs?category=it" 2 = "https://w.test/jobs?category=it&page=2" /\
  build_page_url "https://w.test/jobs?page=" 2 = "https://w.test/jobs?page=" /\
  py_split "/job/" "a/job/b/job/c" = ["a"; "b"; "c"] /\
  py_split "/job/" "" = [""] /\ py_split "/job/" "/job/" = [""; ""] /\
  strip_char "/" "//ab/c//" = "ab/c" /\
  py_replace "ab" "x" "aabab" = "axx" /\
  generar_propuesta_text (Some " [Hola] Tu nombre ") = Some "Hola Constantino Di Nisio".
Proof. vm_compute. repeat split; reflexivity. Qed.

(* ------------------------------------------------------------------ *)
(** ** Lemmas on [contains], [has_char] and [py_replace] *)

Lemma prefix_nil s : String.prefix "" s = true.
Proof. destruct s; reflexivity. Qed.

Lemma prefix_app p a b : String.prefix p a = true -> String.prefix p (a ++ b) = true.
Proof.
  revert a. induction p as [|x p IH]; intros [|y a] H.
  - destruct b; reflexivity.
  - destruct b; reflexivity.
  - discriminate H.
  - simpl in *. destruct (ascii_dec x y); [apply IH, H|discriminate H].
Qed.

Lemma contains_app_l p a b : contains p a = true -> contains p (a ++ b) = true.
Proof.
  induction a as [|c a IH]; simpl; intros H.
  - apply orb_true_iff in H as [H|H]; [|discriminate H].
    destruct p; [|discriminate H]. destruct b; reflexivity.
  - apply orb_true_iff in H as [H|H].
    + apply orb_true_iff. left. exact (prefix_app _ (String c a) b H).
    + apply orb_true_iff. right. exact (IH H).
Qed.

Lemma contains_app_r p a b : contains p b = true -> contains p (a ++ b) = true.
Proof.
  induction a as [|c a IH]; simpl; intros H; [exact H|].
  apply orb_true_iff. right. exact (IH H).
Qed.

Lemma contains_cons_false p c r :
  contains p (String c r) = false -> String.prefix p (String c r) = false /\ contains p r = false.
Proof. simpl. intros H. apply orb_false_iff in H. exact H. Qed.

(** A prefix of [a ++ String d b] is a prefix of [a], or contains [d]. *)
Lemma prefix_app_split p a d b :
  String.prefix p (a ++ String d b) = true ->
  String.prefix p a = true \/ has_char d p = true.
Proof.
  revert a. induction p as [|x p IH]; intros a H; [left; apply prefix_nil|].
  destruct a as [|y a]; simpl in H.
  - destruct (ascii_dec x d) as [->|]; [|discriminate H].
    right. simpl. rewrite Ascii.eqb_refl. reflexivity.
  - destruct (ascii_dec x y) as [->|]; [|discriminate H].
    destruct (IH a H) as [H'|H'].
    + left. simpl. destruct (ascii_dec y y); [exact H'|congruence].
    + right. simpl. rewrite H'. apply orb_true_r.
Qed.

Lemma has_char_app x a b : has_char x (a ++ b) = has_char x a || has_char x b.
Proof. induction a as [|c a IH]; simpl; [reflexivity|]. rewrite IH. apply orb_assoc. Qed.

Lemma has_char_drop x n s : has_char x (str_drop n s) = true -> has_char x s = true.
Proof.
  revert s. induction n as [|n IH]; intros [|c s] H; simpl in *; try easy.
  rewrite (IH s H). apply orb_true_r.
Qed.

Lemma has_char_get x s : has_char x s = false <-> forall n, String.get n s <> Some x.
Proof.
  induction s as [|c s IH]; simpl; [split; [intros _ n; discriminate|reflexivity]|].
  rewrite orb_false_iff, IH. split.
  - intros [Hc Hs] [|n]; simpl; [|apply Hs].
    intros [= ->]. rewrite Ascii.eqb_refl in Hc. discriminate Hc.
  - intros H. split; [|intros n; exact (H (S n))].
    destruct (Ascii.eqb c x) eqn:E; [|reflexivity].
    apply Ascii.eqb_eq in E. subst. exfalso. exact (H 0 eq_refl).
Qed.

Lemma replace_fuel_cons f old new c r :
  replace_fuel (S f) old new (String c r) =
  if String.prefix old (String c r)
  then new ++ replace_fuel f old new (str_drop (String.length old) (String c r))
  else String c (replace_fuel f old new r).
Proof. reflexivity. Qed.

(** [replace] introduces no character absent from the text and from [new]. *)
Lemma replace_fuel_no_char x f old new s :
  has_char x s = false -> has_char x new = false ->
  has_char x (replace_fuel f old new s) = false.
Proof.
  revert s. induction f as [|f IH]; intros s Hs Hn; [exact Hs|].
  destruct s as [|c r]; [reflexivity|]. rewrite replace_fuel_cons.
  destruct (String.prefix old (String c r)).
  - rewrite has_char_app, Hn. apply IH; [|exact Hn].
    destruct (has_char x (str_drop (String.length old) (String c r))) eqn:E; [|reflexivity].
    apply has_char_drop in E. rewrite E in Hs. discriminate Hs.
  - simpl in Hs |- *. apply orb_false_iff in Hs as [Hc Hr].
    rewrite Hc. apply IH; assumption.
Qed.

(** Removing a character with enough fuel leaves none of it. *)
Lemma has_char_cons x c r : has_char x (String c r) = Ascii.eqb c x || has_char x r.
Proof. reflexivity. Qed.

Lemma replace_fuel_removes x f s :
  String.length s <= f -> has_char x (replace_fuel f (String x "") "" s) = false.
Proof.
  revert s. induction f as [|f IH]; intros [|c r] Hl; simpl in Hl; try reflexivity; try lia.
  rewrite replace_fuel_cons.
  destruct (ascii_dec x c) as [<-|Hxc].
  - assert (E : String.prefix (String x "") (String x r) = true).
    { simpl. destruct (ascii_dec x x); [apply prefix_nil|congruence]. }
    rewrite E. exact (IH r ltac:(lia)).
  - assert (E : String.prefix (String x "") (String c r) = false).
    { simpl. destruct (ascii_dec x c); congruence. }
    rewrite E, has_char_cons, (IH r ltac:(lia)).
    destruct (Ascii.eqb c x) eqn:Ec; [apply Ascii.eqb_eq in Ec; congruence|reflexivity].
Qed.

Lemma contains_prefix p s : String.prefix p s = true -> contains p s = true.
Proof. intros H. destruct s; cbn [contains]; rewrite H; reflexivity. Qed.

Lemma append_nil_r s : s ++ "" = s.
Proof. induction s as [|c s IH]; [reflexivity|]. exact (f_equal (String c) IH). Qed.

Lemma str_drop_length s : str_drop (String.length s) s = "".
Proof. induction s as [|c s IH]; [reflexivity|]. exact IH. Qed.

(* ------------------------------------------------------------------ *)
(** ** Lemmas on [str_of_nat] and [sub_page] *)

Lemma is_digit_digit_char d : d < 10 -> is_digit (digit_char d) = true.
Proof.
  intros Hd. unfold is_digit, digit_char.
  rewrite nat_ascii_embedding by lia.
  apply andb_true_iff. split; apply Nat.leb_le; lia.
Qed.

Lemma digits_fuel_digits f n acc :
  digits_len acc = String.length acc ->
  digits_len (digits_fuel f n acc) = String.length (digits_fuel f n acc).
Proof.
  revert n acc. induction f as [|f IH]; intros n acc H; [exact H|].
  cbn [digits_fuel].
  assert (Hc : digits_len (String (digit_char (n mod 10)) acc)
               = String.length (String (digit_char (n mod 10)) acc)).
  { cbn [digits_len String.length].
    rewrite is_digit_digit_char by (apply Nat.mod_upper_bound; lia). rewrite H. reflexivity. }
  destruct (n <? 10)%nat; [exact Hc|]. exact (IH (n / 10) _ Hc).
Qed.

Lemma digits_fuel_nonempty f n acc : acc <> "" -> digits_fuel f n acc <> "".
Proof.
  revert n acc. induction f as [|f IH]; intros n acc H; [exact H|].
  cbn [digits_fuel]. destruct (n <? 10)%nat; [discriminate|]. apply IH. discriminate.
Qed.

Lemma str_of_nat_digits n : digits_len (str_of_nat n) = String.length (str_of_nat n).
Proof. apply digits_fuel_digits. reflexivity. Qed.

Lemma str_of_nat_nonempty n : str_of_nat n <> "".
Proof.
  unfold str_of_nat. cbn [digits_fuel].
  destruct (n <? 10)%nat; [discriminate|]. apply digits_fuel_nonempty. discriminate.
Qed.

Lemma sub_page_fuel_cons f repl c r :
  sub_page_fuel (S f) repl (String c r) =
  if String.prefix "page=" (String c r) && (0 <? digits_len (str_drop 5 (String c r)))%nat
  then repl ++ sub_page_fuel f repl (str_drop (5 + digits_len (str_drop 5 (String c r))) (String c r))
  else String c (sub_page_fuel f repl r).
Proof. reflexivity. Qed.

(** [re.sub] copies a part with no ["page="] unchanged when no match
    can start in it and run past its end. *)
Lemma sub_page_fuel_app f repl a d b :
  contains "page=" a = false -> has_char d "page=" = false ->
  String.length (a ++ String d b) <= f ->
  sub_page_fuel f repl (a ++ String d b) = a ++ sub_page_fuel (f - String.length a) repl (String d b).
Proof.
  revert f. induction a as [|c a IH]; intros f Ha Hd Hl.
  - simpl. rewrite Nat.sub_0_r. reflexivity.
  - destruct f as [|f]; [simpl in Hl; lia|].
    change (String c a ++ String d b) with (String c (a ++ String d b)).
    rewrite sub_page_fuel_cons.
    apply contains_cons_false in Ha as [Hp Ha].
    assert (E : String.prefix "page=" (String c (a ++ String d b)) = false).
    { destruct (String.prefix "page=" (String c (a ++ String d b))) eqn:E; [|reflexivity].
      destruct (prefix_app_split "page=" (String c a) d b E) as [E'|E'];
        [rewrite E' in Hp|rewrite E' in Hd]; discriminate. }
    rewrite E. simpl andb. cbv iota. rewrite IH by (simpl in Hl; assumption || lia).
    reflexivity.
Qed.

(** ... and replaces a trailing [page=<digits>] after a separator. *)
Lemma sub_page_fuel_tail g repl d dn :
  (d = "&"%char \/ d = "?"%char) -> dn <> "" -> digits_len dn = String.length dn ->
  6 + String.length dn <= g ->
  sub_page_fuel g repl (String d ("page=" ++ dn)) = String d repl.
Proof.
  intros Hd Hn Hdig Hg.
  destruct g as [|g]; [lia|]. rewrite sub_page_fuel_cons.
  replace (String.prefix "page=" (String d ("page=" ++ dn))) with false
    by (destruct Hd as [->| ->]; reflexivity).
  simpl andb. cbv iota. f_equal.
  destruct g as [|g]; [lia|].
  change ("page=" ++ dn) with (String "p" ("age=" ++ dn)). rewrite sub_page_fuel_cons.
  change (String "p" ("age=" ++ dn)) with ("page=" ++ dn).
  rewrite (prefix_app "page=" "page=" dn eq_refl).
  change (str_drop 5 ("page=" ++ dn)) with dn.
  destruct dn as [|c r]; [congruence|]. rewrite Hdig. simpl andb. cbv iota.
  change (str_drop (5 + String.length (String c r)) ("page=" ++ String c r))
    with (str_drop (String.length (String c r)) (String c r)).
  rewrite str_drop_length. destruct g; rewrite append_nil_r || (simpl; rewrite append_nil_r);
    reflexivity.
Qed.

Lemma length_app a b : String.length (a ++ b) = String.length a + String.length b.
Proof. induction a as [|c a IH]; [reflexivity|]. exact (f_equal S IH). Qed.

Lemma to_message_url_fixed v :
  contains "/messages/bid/" v = true -> contains "tab=" v = true -> to_message_url v = v.
Proof. intros H1 H2. unfold to_message_url. rewrite H1, H2. reflexivity. Qed.

(* ------------------------------------------------------------------ *)
(** ** Marketplace urls, pagination and the AI draft text *)

(** [to_message_url] is idempotent: the submission url it computes (a
    [/messages/bid/] url carrying [tab=], or the input when it has neither
    [/messages/bid/] nor [/job/]) is left unchanged by a second call. *)
Theorem to_message_url_idempotent u : to_message_url (to_message_url u) = to_message_url u.
Proof.
  unfold to_message_url at 2 3.
  destruct (contains "/messages/bid/" u) eqn:Hm.
  - destruct (contains "tab=" u) eqn:Ht; cbn [negb].
    + apply to_message_url_fixed; assumption.
    + apply to_message_url_fixed.
      * apply contains_app_l, Hm.
      * apply contains_app_r. destruct (contains "?" u); reflexivity.
  - destruct (contains "/job/" u) eqn:Hj.
    + apply to_message_url_fixed.
      * apply contains_app_l. reflexivity.
      * apply contains_app_r, contains_app_r. reflexivity.
    + unfold to_message_url. rewrite Hm, Hj. reflexivity.
Qed.

(** [build_page_url] on a base url without ["page="] appends
    [page=<n>] after ['&'] or ['?']; calling it again on the result with
    another page number gives the base url's url for that page: the page
    number is replaced in place and nothing else changes. *)
Theorem build_page_url_repaginate base n m :
  contains "page=" base = false ->
  build_page_url (build_page_url base n) m = build_page_url base m.
Proof.
  intros H. unfold build_page_url at 2 3. rewrite H.
  assert (Hsep : exists d, (d = "&"%char \/ d = "?"%char) /\
                   (if contains "?" base then "&" else "?") = String d "").
  { destruct (contains "?" base); eexists; split; [left|reflexivity|right|reflexivity];
      reflexivity. }
  destruct Hsep as (d & Hd & ->).
  change (String d "" ++ "page=" ++ str_of_nat n) with (String d ("page=" ++ str_of_nat n)).
  change (String d "" ++ "page=" ++ str_of_nat m) with (String d ("page=" ++ str_of_nat m)).
  unfold build_page_url.
  rewrite (contains_app_r "page=" base).
  2:{ cbn [contains]. apply orb_true_iff. right.
      apply contains_prefix, prefix_app. reflexivity. }
  unfold sub_page.
  rewrite sub_page_fuel_app; [|exact H|destruct Hd as [-> | ->]; reflexivity|lia].
  f_equal. apply sub_page_fuel_tail;
    [exact Hd|apply str_of_nat_nonempty|apply str_of_nat_digits|].
  rewrite length_app. cbn [String.length]. rewrite length_app. cbn [String.length]. lia.
Qed.

Lemma build_page_url_repaginate_witness :
  contains "page=" "https://www.workana.com/jobs?language=es" = false /\
  build_page_url (build_page_url "https://www.workana.com/jobs?language=es" 1) 7 =
    "https://www.workana.com/jobs?language=es&page=7".
Proof.
  split; [reflexivity|].
  rewrite (build_page_url_repaginate "https://www.workana.com/jobs?language=es" 1 7 eq_refl).
  vm_compute. reflexivity.
Defined.

(** The text [generar_propuesta] returns never contains ['['] or [']'],
    whatever the model's message: both are deleted after the strip, and
    the later "Tu nombre"/"tu nombre" replacements insert none. *)
Theorem generar_propuesta_no_brackets c :
  exists t, generar_propuesta_text (Some c) = Some t /\
    (forall n, String.get n t <> Some "["%char) /\
    (forall n, String.get n t <> Some "]"%char).
Proof.
  eexists. split; [reflexivity|].
  split; apply has_char_get;
    apply replace_fuel_no_char; try reflexivity;
    apply replace_fuel_no_char; try reflexivity.
  - apply replace_fuel_no_char; [|reflexivity]. apply replace_fuel_removes. lia.
  - apply replace_fuel_removes. lia.
Qed.

(* ------------------------------------------------------------------ *)
(** ** Lemmas on the table operations *)

Lemma set_status_present jid s j db :
  db !! jid = Some j -> set_status jid s db = <[jid := with_status s j]> db.
Proof.
  intros Hj. apply map_eq. intros k. unfold set_status.
  destruct (decide (k = jid)) as [->|Hk].
  - rewrite lookup_alter_eq, lookup_insert_eq, Hj. reflexivity.
  - rewrite lookup_alter_ne, lookup_insert_ne by congruence. reflexivity.
Qed.

Lemma set_proposal_present jid p s j db :
  db !! jid = Some j -> set_proposal jid p s db = <[jid := with_proposal p s j]> db.
Proof.
  intros Hj. apply map_eq. intros k. unfold set_proposal.
  destruct (decide (k = jid)) as [->|Hk].
  - rewrite lookup_alter_eq, lookup_insert_eq, Hj. reflexivity.
  - rewrite lookup_alter_ne, lookup_insert_ne by congruence. reflexivity.
Qed.

Lemma split_pipe_none data :
  (forall n, String.get n data <> Some "|"%char) -> split_pipe data = None.
Proof.
  induction data as [|c r IH]; intros H; [reflexivity|]. cbn [split_pipe].
  destruct (Ascii.eqb c "|"%char) eqn:Ec.
  - apply Ascii.eqb_eq in Ec. subst. exfalso. exact (H 0 eq_refl).
  - rewrite IH; [reflexivity|]. intros n. exact (H (S n)).
Qed.

Lemma split_pipe_INT jid : split_pipe ("INT|" ++ jid) = Some ("INT", jid).
Proof. reflexivity. Qed.

Lemma split_pipe_OK jid : split_pipe ("OK|" ++ jid) = Some ("OK", jid).
Proof. reflexivity. Qed.

Lemma with_proposal_status p s s' j : with_proposal p s (with_status s' j) = with_proposal p s j.
Proof. reflexivity. Qed.

(** Every table a button press leaves behind is the old one with at most
    the named row altered, by [with_status] or [with_proposal]. *)
Lemma on_callback_alters data g o db :
  let db' := cb_db (fst (run_callback data g o db)) in
  db' = db \/
  exists action jid j, split_pipe data = Some (action, jid) /\
    List.In action ["NO"; "INT"; "OK"] /\ db !! jid = Some j /\
    (forall k, k <> jid -> db' !! k = db !! k) /\
    exists p s, db' !! jid = Some (with_status s j) \/
                db' !! jid = Some (with_proposal p s j).
Proof.
  run_monad.
  destruct (split_pipe data) as [[action jid]|] eqn:Hs; cbn; [|left; reflexivity].
  destruct (db !! jid) as [j|] eqn:Hj; cbn; [|left; reflexivity].
  assert (Hne : forall f k, k <> jid -> alter f jid db !! k = db !! k)
    by (intros f k Hk; apply lookup_alter_ne; congruence).
  destruct (String.eqb action "NO") eqn:HNO; cbn.
  { right. apply String.eqb_eq in HNO. subst. exists "NO", jid, j.
    split; [reflexivity|]. split; [left; reflexivity|]. split; [exact Hj|].
    split; [intros k Hk; apply Hne, Hk|].
    exists "", ignored. left. unfold set_status. rewrite lookup_alter_eq, Hj. reflexivity. }
  destruct (String.eqb action "INT") eqn:HINT; cbn; rewrite ?Hj; cbn.
  - apply String.eqb_eq in HINT. subst.
    destruct (String.eqb (py_strip (proposal j)) "") eqn:Hp; cbn; [|left; reflexivity].
    right. exists "INT", jid, j. split; [reflexivity|]. split; [right; left; reflexivity|].
    split; [exact Hj|].
    destruct g as [|r]; cbn.
    + split; [intros k Hk; apply Hne, Hk|].
      exists "", generating. left. unfold set_status. rewrite lookup_alter_eq, Hj. reflexivity.
    + split.
      * intros k Hk. unfold set_proposal, set_status.
        rewrite !lookup_alter_ne by congruence. reflexivity.
      * exists (py_strip (default "" r)), pending_send. right.
        unfold set_proposal, set_status. rewrite !lookup_alter_eq, Hj. reflexivity.
  - destruct (String.eqb action "OK") eqn:HOK; cbn; [|left; reflexivity].
    apply String.eqb_eq in HOK. subst. rewrite ?Hj; cbn.
    destruct (String.eqb (py_strip (proposal j)) "") eqn:Hp; cbn; [left; reflexivity|].
    destruct o as [|[|]]; cbn; [left; reflexivity| |];
      right; exists "OK", jid, j; (split; [reflexivity|]); (split; [right; right; left; reflexivity|]);
      (split; [exact Hj|]); (split; [intros k Hk; apply Hne, Hk|]);
      [exists "", sent|exists "", error]; left; unfold set_status;
      rewrite lookup_alter_eq, Hj; reflexivity.
Qed.

(* ------------------------------------------------------------------ *)
(** ** Button presses: edge cases and the review paths *)

(** The [callback_data] of every button of [keyboard_send] and
    [keyboard_interest] is split back by [on_callback] into a known
    action ([OK], [NO] or [INT]) and exactly the job id the keyboard was
    built for, whatever characters the id contains. *)
Theorem keyboard_data_roundtrip kb d :
  List.In d (keyboard_data kb) ->
  exists action, split_pipe d = Some (action, keyboard_job kb) /\
    List.In action ["OK"; "NO"; "INT"].
Proof.
  intros H. destruct kb as [jid|jid]; cbn in H;
    destruct H as [<-|[<-|[]]]; eexists; (split; [reflexivity|]); cbn; tauto.
Qed.

Lemma keyboard_data_roundtrip_witness :
  List.In "INT|a|b" (keyboard_data (kb_interest "a|b")) /\
  exists action, split_pipe "INT|a|b" = Some (action, keyboard_job (kb_interest "a|b")) /\
    List.In action ["OK"; "NO"; "INT"].
Proof.
  assert (H : List.In "INT|a|b" (keyboard_data (kb_interest "a|b"))) by (left; reflexivity).
  split; [exact H|]. exact (keyboard_data_roundtrip (kb_interest "a|b") _ H).
Defined.

(** Callback data without a ['|'] makes the unpacking raise
    [ValueError] right after the query is answered: the table is left
    unchanged and nothing else happens. *)
Theorem on_callback_malformed_data data g o db :
  (forall n, String.get n data <> Some "|"%char) ->
  run_callback data g o db = (mk_cb db [ev_answer], Exn).
Proof. intros H. run_monad. rewrite (split_pipe_none data H). reflexivity. Qed.

Lemma on_callback_malformed_data_witness :
  (forall n, String.get n "INT" <> Some "|"%char) /\
  run_callback "INT" gen_raises sub_raises db_new = (mk_cb db_new [ev_answer], Exn).
Proof.
  assert (H : forall n, String.get n "INT" <> Some "|"%char)
    by (intros [|[|[|n]]]; discriminate).
  split; [exact H|]. exact (on_callback_malformed_data "INT" gen_raises sub_raises db_new H).
Defined.

(** A press naming a job id with no row only posts "No encontré el
    trabajo en la DB.": the table is unchanged and no collaborator is
    called, whatever the action. *)
Theorem on_callback_unknown_job data action jid g o db :
  split_pipe data = Some (action, jid) -> db !! jid = None ->
  run_callback data g o db = (mk_cb db [ev_answer; ev_reply msg_not_found], Ok tt).
Proof. intros Hs Hj. run_monad. rewrite Hs. cbn. rewrite Hj. reflexivity. Qed.

Lemma on_callback_unknown_job_witness :
  split_pipe "OK|nope" = Some ("OK", "nope") /\ db_new !! "nope" = None /\
  run_callback "OK|nope" gen_raises sub_raises db_new =
    (mk_cb db_new [ev_answer; ev_reply msg_not_found], Ok tt).
Proof.
  assert (Hs : split_pipe "OK|nope" = Some ("OK", "nope")) by reflexivity.
  assert (Hj : db_new !! "nope" = None) by (vm_compute; reflexivity).
  split; [exact Hs|]. split; [exact Hj|].
  exact (on_callback_unknown_job _ _ _ gen_raises sub_raises _ Hs Hj).
Defined.

(** A button press changes the table only if its data is
    [ACTION|job_id] with [ACTION] one of [NO], [INT], [OK] and [job_id]
    an existing row; it then changes that row only, and only its status
    or its proposal.  An unknown action is ignored. *)
Theorem on_callback_touches_named_row data g o db :
  cb_db (fst (run_callback data g o db)) <> db ->
  exists action jid j, split_pipe data = Some (action, jid) /\
    List.In action ["NO"; "INT"; "OK"] /\ db !! jid = Some j /\
    (forall k, k <> jid -> cb_db (fst (run_callback data g o db)) !! k = db !! k) /\
    exists j', cb_db (fst (run_callback data g o db)) !! jid = Some j' /\
      fixed_fields j' = fixed_fields j.
Proof.
  intros Hch. destruct (on_callback_alters data g o db) as [E|H]; [contradiction|].
  destruct H as (action & jid & j & Hs & Ha & Hj & Hk & p & s & Hj').
  exists action, jid, j. repeat (split; [assumption|]).
  destruct Hj' as [Hj'|Hj']; eexists; (split; [exact Hj'|reflexivity]).
Qed.

Lemma on_callback_touches_named_row_witness :
  cb_db (fst (run_callback "NO|3a55e8f8da82" gen_raises sub_raises db_new)) <> db_new /\
  exists action jid j, split_pipe "NO|3a55e8f8da82" = Some (action, jid) /\
    List.In action ["NO"; "INT"; "OK"] /\ db_new !! jid = Some j /\
    (forall k, k <> jid ->
       cb_db (fst (run_callback "NO|3a55e8f8da82" gen_raises sub_raises db_new)) !! k
       = db_new !! k) /\
    exists j', cb_db (fst (run_callback "NO|3a55e8f8da82" gen_raises sub_raises db_new))
                 !! jid = Some j' /\ fixed_fields j' = fixed_fields j.
Proof.
  assert (H : cb_db (fst (run_callback "NO|3a55e8f8da82" gen_raises sub_raises db_new))
              <> db_new).
  { intros E. apply (f_equal (lookup id42)) in E. vm_compute in E. discriminate E. }
  split; [exact H|]. exact (on_callback_touches_named_row _ _ _ _ H).
Defined.

(** "Ignorar" on an existing job sets it to [ignored] from any status,
    also [sent] or [error], keeps its proposal, removes the buttons and
    posts "Proyecto ignorado."; no collaborator is called. *)
Theorem on_callback_ignore data jid j g o db :
  split_pipe data = Some ("NO", jid) -> db !! jid = Some j ->
  run_callback data g o db =
    (mk_cb (<[jid := with_status ignored j]> db)
       [ev_answer; ev_edit_markup None; ev_reply msg_ignored], Ok tt).
Proof.
  intros Hs Hj. run_monad. rewrite Hs. cbn. rewrite Hj. cbn.
  rewrite (set_status_present jid ignored j db Hj). reflexivity.
Qed.

Lemma on_callback_ignore_witness :
  split_pipe ("NO|" ++ id42) = Some ("NO", id42) /\
  db_drafted !! id42 =
    Some (mk_job id42 "https://x.test/job/42" "T" "" "" "" "draft text" pending_send 0) /\
  run_callback ("NO|" ++ id42) gen_raises sub_raises db_drafted =
    (mk_cb (<[id42 := mk_job id42 "https://x.test/job/42" "T" "" "" "" "draft text" ignored 0]>
              db_drafted)
       [ev_answer; ev_edit_markup None; ev_reply msg_ignored], Ok tt).
Proof.
  assert (Hs : split_pipe ("NO|" ++ id42) = Some ("NO", id42)) by reflexivity.
  assert (Hj : db_drafted !! id42 =
    Some (mk_job id42 "https://x.test/job/42" "T" "" "" "" "draft text" pending_send 0))
    by (vm_compute; reflexivity).
  split; [exact Hs|]. split; [exact Hj|].
  exact (on_callback_ignore _ _ _ gen_raises sub_raises _ Hs Hj).
Defined.

(** "Enviar propuesta" on a job whose stripped proposal is empty does
    not call the submission: it posts "No hay propuesta generada..." and
    puts back the "Me interesa" keyboard, leaving the table unchanged. *)
Theorem on_callback_approve_without_proposal data jid j g o db :
  split_pipe data = Some ("OK", jid) -> db !! jid = Some j -> py_strip (proposal j) = "" ->
  run_callback data g o db =
    (mk_cb db [ev_answer; ev_reply msg_no_proposal; ev_edit_markup (Some (kb_interest jid))],
     Ok tt).
Proof.
  intros Hs Hj Hp. run_monad. rewrite Hs. cbn. rewrite Hj. cbn. rewrite Hj. cbn.
  rewrite Hp. reflexivity.
Qed.

Lemma on_callback_approve_without_proposal_witness :
  split_pipe ("OK|" ++ id42) = Some ("OK", id42) /\
  db_new !! id42 = Some (mk_job id42 "https://x.test/job/42" "T" "" "" "" "" pending_interest 0) /\
  py_strip "" = "" /\
  run_callback ("OK|" ++ id42) gen_raises sub_raises db_new =
    (mk_cb db_new [ev_answer; ev_reply msg_no_proposal; ev_edit_markup (Some (kb_interest id42))],
     Ok tt).
Proof.
  assert (Hs : split_pipe ("OK|" ++ id42) = Some ("OK", id42)) by reflexivity.
  assert (Hj : db_new !! id42 =
    Some (mk_job id42 "https://x.test/job/42" "T" "" "" "" "" pending_interest 0))
    by (vm_compute; reflexivity).
  split; [exact Hs|]. split; [exact Hj|]. split; [reflexivity|].
  exact (on_callback_approve_without_proposal _ _ _ gen_raises sub_raises _ Hs Hj eq_refl).
Defined.

(** "Me interesa" on a job with an empty stripped proposal, with a
    generator that returns [r]: the generator gets the row as read
    before the status change, the row ends with the stripped text (empty
    for [None]) as proposal and status [pending_send], and the message is
    re-rendered from that row with the send keyboard. *)
Theorem on_callback_interest_drafts data jid j r o db :
  split_pipe data = Some ("INT", jid) -> db !! jid = Some j -> py_strip (proposal j) = "" ->
  let p := py_strip (default "" r) in
  run_callback data (gen_returns r) o db =
    (mk_cb (<[jid := with_proposal p pending_send j]> db)
       [ev_answer; ev_reply msg_generating; ev_generate j;
        ev_edit_text (with_proposal p pending_send j) (kb_send jid)], Ok tt).
Proof.
  intros Hs Hj Hp p. run_monad. rewrite Hs. cbn. rewrite Hj. cbn. rewrite Hj. cbn.
  rewrite Hp. cbn. unfold set_proposal, set_status.
  rewrite !lookup_alter_eq, Hj. cbn.
  rewrite <- (set_proposal_present jid p pending_send j db Hj).
  unfold set_proposal. f_equal. f_equal.
  apply map_eq. intros k. destruct (decide (k = jid)) as [->|Hk].
  - rewrite !lookup_alter_eq, Hj. reflexivity.
  - rewrite !lookup_alter_ne by congruence. reflexivity.
Qed.

Lemma on_callback_interest_drafts_witness :
  split_pipe ("INT|" ++ id42) = Some ("INT", id42) /\
  db_new !! id42 = Some (mk_job id42 "https://x.test/job/42" "T" "" "" "" "" pending_interest 0) /\
  py_strip "" = "" /\
  run_callback ("INT|" ++ id42) (gen_returns (Some " Hola ")) sub_raises db_new =
    (mk_cb (<[id42 := mk_job id42 "https://x.test/job/42" "T" "" "" "" "Hola" pending_send 0]>
              db_new)
       [ev_answer; ev_reply msg_generating;
        ev_generate (mk_job id42 "https://x.test/job/42" "T" "" "" "" "" pending_interest 0);
        ev_edit_text (mk_job id42 "https://x.test/job/42" "T" "" "" "" "Hola" pending_send 0)
          (kb_send id42)], Ok tt).
Proof.
  assert (Hs : split_pipe ("INT|" ++ id42) = Some ("INT", id42)) by reflexivity.
  assert (Hj : db_new !! id42 =
    Some (mk_job id42 "https://x.test/job/42" "T" "" "" "" "" pending_interest 0))
    by (vm_compute; reflexivity).
  split; [exact Hs|]. split; [exact Hj|]. split; [reflexivity|].
  exact (on_callback_interest_drafts _ _ _ (Some " Hola ") sub_raises _ Hs Hj eq_refl).
Defined.

(** From ingestion to submission: after an accepted job is ingested,
    "Me interesa" with a generator returning a text [t] whose strip is
    non-empty, then "Enviar propuesta" with a submission that succeeds,
    submit the stored url (stripped, query cut) with the stripped text,
    and leave the row at [sent] with that proposal. *)
Theorem job_lifecycle_to_sent bs now rj db t :
  url_accepted (trimmed_url rj) = true -> py_strip t <> "" ->
  let jid := derive_id (default "" (raw_url rj)) in
  let db1 := fst (handle_new_job bs true now rj db) in
  let '(st2, r2) := run_callback ("INT|" ++ jid) (gen_returns (Some t)) sub_raises db1 in
  let '(st3, r3) := run_callback ("OK|" ++ jid) gen_raises (sub_returns true) (cb_db st2) in
  r2 = Ok tt /\ r3 = Ok tt /\
  List.In (ev_submit (split_query (trimmed_url rj)) (py_strip t)) (cb_trace st3) /\
  exists j, cb_db st3 !! jid = Some j /\ job_status j = sent /\
    proposal j = py_strip t /\ url j = split_query (trimmed_url rj).
Proof.
  intros Ha Ht jid db1. subst db1.
  rewrite (handle_new_job_accepted bs true now rj db Ha). cbn [fst].
  fold jid.
  set (j0 := mk_job jid (split_query (trimmed_url rj)) (strip_html bs (raw_title rj))
               (strip_html bs (raw_short_description rj)) (strip_html bs (raw_budget rj))
               (strip_html bs (raw_date rj)) "" pending_interest now).
  set (db1 := <[jid := j0]> db).
  assert (H1 : db1 !! jid = Some j0) by apply lookup_insert_eq.
  unfold run_callback at 1.
  replace (on_callback ("INT|" ++ jid) (gen_returns (Some t)) sub_raises (mk_cb db1 []))
    with (run_callback ("INT|" ++ jid) (gen_returns (Some t)) sub_raises db1) by reflexivity.
  rewrite (on_callback_interest_drafts _ jid j0 (Some t) sub_raises db1 (split_pipe_INT jid) H1
             eq_refl).
  cbn [cb_db fst]. set (j1 := with_proposal (py_strip (default "" (Some t))) pending_send j0).
  assert (H2 : <[jid := j1]> db1 !! jid = Some j1) by apply lookup_insert_eq.
  assert (Hp : String.eqb (py_strip (proposal j1)) "" = false).
  { apply String.eqb_neq. change (proposal j1) with (py_strip t). rewrite py_strip_idem. exact Ht. }
  assert (E1 : proposal j1 = py_strip t) by reflexivity.
  assert (E2 : url j1 = split_query (trimmed_url rj)) by reflexivity.
  clearbody j1 db1.
  run_monad. rewrite split_pipe_OK. cbn. rewrite H2. cbn. rewrite H2. cbn. rewrite Hp. cbn.
  split; [reflexivity|]. split; [reflexivity|].
  split.
  - rewrite E1, E2, py_strip_idem. do 2 right. left. reflexivity.
  - eexists. split.
    + unfold set_status. rewrite lookup_alter_eq, H2. reflexivity.
    + cbn. split; [reflexivity|]. split; [exact E1|exact E2].
Qed.

Lemma job_lifecycle_to_sent_witness :
  url_accepted (trimmed_url raw42) = true /\ py_strip " Hola " <> "" /\
  (let jid := derive_id (default "" (raw_url raw42)) in
   let db1 := fst (handle_new_job bs_plain true 0 raw42 ∅) in
   let '(st2, r2) := run_callback ("INT|" ++ jid) (gen_returns (Some " Hola ")) sub_raises db1 in
   let '(st3, r3) := run_callback ("OK|" ++ jid) gen_raises (sub_returns true) (cb_db st2) in
   r2 = Ok tt /\ r3 = Ok tt /\
   List.In (ev_submit (split_query (trimmed_url raw42)) (py_strip " Hola ")) (cb_trace st3) /\
   exists j, cb_db st3 !! jid = Some j /\ job_status j = sent /\
     proposal j = py_strip " Hola " /\ url j = split_query (trimmed_url raw42)).
Proof.
  assert (Ha : url_accepted (trimmed_url raw42) = true) by (vm_compute; reflexivity).
  assert (Ht : py_strip " Hola " <> "") by discriminate.
  split; [exact Ha|]. split; [exact Ht|].
  exact (job_lifecycle_to_sent bs_plain 0 raw42 ∅ " Hola " Ha Ht).
Defined.

(* ------------------------------------------------------------------ *)
(** ** Keys and urls of reachable rows *)

Definition row_keyed (k : string) (j : job) : Prop :=
  job_id j = k /\ k = make_job_id (url j) /\ startswith (url j) "http" = true /\
  (forall n, String.get n (url j) <> Some "?"%char).

Lemma prefix_split_query p u :
  has_char "?"%char p = false -> String.prefix p u = true -> String.prefix p (split_query u) = true.
Proof.
  revert u. induction p as [|a p IH]; intros u Hq H; [apply prefix_nil|].
  destruct u as [|b u]; [discriminate H|].
  rewrite has_char_cons in Hq. apply orb_false_iff in Hq as [Ha Hq].
  cbn [String.prefix] in H. destruct (ascii_dec a b) as [<-|]; [|discriminate H].
  cbn [split_query]. rewrite Ha. cbn [String.prefix].
  destruct (ascii_dec a a) as [_|]; [exact (IH u Hq H)|congruence].
Qed.

Lemma startswith_http_split_query u :
  startswith u "http" = true -> startswith (split_query u) "http" = true.
Proof. apply prefix_split_query. reflexivity. Qed.

Lemma rows_keyed_ingest bs en now rj db :
  map_Forall row_keyed db -> map_Forall row_keyed (fst (handle_new_job bs en now rj db)).
Proof.
  intros H. destruct (url_accepted (trimmed_url rj)) eqn:Ha.
  - rewrite (handle_new_job_accepted bs en now rj db Ha). cbn.
    apply map_Forall_insert_2; [|exact H].
    unfold row_keyed; cbn. split; [reflexivity|]. split; [reflexivity|].
    split; [|apply split_query_no_qmark].
    apply startswith_http_split_query. unfold url_accepted in Ha.
    apply andb_true_iff in Ha. apply Ha.
  - rewrite (handle_new_job_rejected bs en now rj db Ha). exact H.
Qed.

Lemma rows_keyed_callback data g o db :
  map_Forall row_keyed db -> map_Forall row_keyed (cb_db (fst (run_callback data g o db))).
Proof.
  intros H k j' Hk.
  destruct (on_callback_alters data g o db) as [E|Hc]; [rewrite E in Hk; exact (H k j' Hk)|].
  destruct Hc as (action & jid & j & _ & _ & Hj & Hne & p & s & Hj').
  destruct (decide (k = jid)) as [->|Hkj].
  - destruct (H jid j Hj) as (H1 & H2 & H3 & H4).
    destruct Hj' as [Hj'|Hj']; rewrite Hj' in Hk; injection Hk as <-;
      unfold row_keyed; cbn; auto.
  - rewrite (Hne k Hkj) in Hk. exact (H k j' Hk).
Qed.

(** In every reachable table each row is stored under its own
    [job_id], which is [make_job_id] of its stored url; that url starts
    with ["http"] and contains no ['?']. *)
Theorem reachable_rows_keyed bs db k j :
  reachable bs db -> db !! k = Some j ->
  job_id j = k /\ k = make_job_id (url j) /\ startswith (url j) "http" = true /\
  (forall n, String.get n (url j) <> Some "?"%char).
Proof.
  intros Hr. revert k j. change (map_Forall row_keyed db).
  induction Hr.
  - apply map_Forall_empty.
  - apply rows_keyed_ingest; assumption.
  - apply rows_keyed_callback; assumption.
Qed.

Lemma reachable_rows_keyed_witness :
  reachable bs_plain db_drafted /\
  db_drafted !! id42 =
    Some (mk_job id42 "https://x.test/job/42" "T" "" "" "" "draft text" pending_send 0) /\
  id42 = make_job_id "https://x.test/job/42".
Proof.
  assert (Hr : reachable bs_plain db_drafted)
    by (apply reach_callback, reach_ingest, reach_init).
  assert (Hk : db_drafted !! id42 =
    Some (mk_job id42 "https://x.test/job/42" "T" "" "" "" "draft text" pending_send 0))
    by (vm_compute; reflexivity).
  split; [exact Hr|]. split; [exact Hk|].
  exact (proj1 (proj2 (reachable_rows_keyed bs_plain db_drafted id42 _ Hr Hk))).
Defined.

(* ------------------------------------------------------------------ *)
(** ** Ingestion: row count and the notification switch *)

(** [handle_new_job] never removes a row and adds at most one; ingesting
    a job whose derived id already has a row keeps the row count (the
    row is replaced, not duplicated). *)
Theorem handle_new_job_row_count bs en now rj db :
  let db' := fst (handle_new_job bs en now rj db) in
  (forall k, is_Some (db !! k) -> is_Some (db' !! k)) /\
  size db <= size db' <= S (size db) /\
  (is_Some (db !! derive_id (default "" (raw_url rj))) -> size db' = size db).
Proof.
  intros db'. subst db'.
  destruct (url_accepted (trimmed_url rj)) eqn:Ha.
  - rewrite (handle_new_job_accepted bs en now rj db Ha). cbn [fst].
    split; [|split].
    + intros k Hk. destruct (decide (k = derive_id (default "" (raw_url rj)))) as [->|Hne].
      * rewrite lookup_insert_eq. eauto.
      * rewrite lookup_insert_ne by congruence. exact Hk.
    + rewrite map_size_insert. destruct (db !! _); cbn; lia.
    + intros [x Hx]. rewrite map_size_insert, Hx. reflexivity.
  - rewrite (handle_new_job_rejected bs en now rj db Ha). cbn [fst].
    split; [auto|]. split; [lia|auto].
Qed.


(* ------------------------------------------------------------------ *)
(** ** The scraper's page loop *)

(** One page of [scrape]: the jobs it keeps ([new_jobs]) are taken from
    the page in order, have pairwise distinct non-empty stripped urls,
    none of them already in [seen_urls] and none filtered by age; the
    new [seen_urls] is the old one plus exactly those urls. *)
Theorem select_new_jobs_dedup too_old page seen :
  let '(new_jobs, seen') := select_new_jobs too_old page seen in
  NoDup (map trimmed_url new_jobs) /\
  Forall (fun j => trimmed_url j <> "" /\ (trimmed_url j ∉ seen) /\ too_old j = false) new_jobs /\
  seen' = list_to_set (map trimmed_url new_jobs) ∪ seen /\
  sublist new_jobs page.
Proof.
  revert seen. induction page as [|job rest IH]; intros seen; cbn [select_new_jobs].
  - split; [constructor|]. split; [constructor|]. split; [|constructor].
    unfold_leibniz. set_solver.
  - destruct (String.eqb (trimmed_url job) "" || bool_decide (trimmed_url job ∈ seen)) eqn:Hs.
    { specialize (IH seen). destruct (select_new_jobs too_old rest seen) as [nj s'].
      destruct IH as (H1 & H2 & H3 & H4). repeat split; try assumption. constructor. exact H4. }
    destruct (too_old job) eqn:Ho.
    { specialize (IH seen). destruct (select_new_jobs too_old rest seen) as [nj s'].
      destruct IH as (H1 & H2 & H3 & H4). repeat split; try assumption. constructor. exact H4. }
    apply orb_false_iff in Hs as [He Hin].
    apply String.eqb_neq in He. apply bool_decide_eq_false in Hin.
    specialize (IH ({[trimmed_url job]} ∪ seen)).
    destruct (select_new_jobs too_old rest ({[trimmed_url job]} ∪ seen)) as [nj s'].
    destruct IH as (H1 & H2 & H3 & H4).
    split; [|split; [|split]].
    + cbn [map]. constructor; [|exact H1].
      intros Hm. apply list_elem_of_In, in_map_iff in Hm as (j' & Ej & Hj').
      rewrite Forall_forall in H2. destruct (H2 j' (proj2 (list_elem_of_In _ _) Hj')) as (_ & Hn & _).
      apply Hn. rewrite Ej. set_solver.
    + constructor; [split; [exact He|split; [exact Hin|exact Ho]]|].
      eapply Forall_impl; [exact H2|]. intros j' (Ha & Hb & Hc). split; [exact Ha|].
      split; [set_solver|exact Hc].
    + rewrite H3. cbn [map list_to_set]. unfold_leibniz. set_solver.
    + constructor. exact H4.
Qed.

Lemma handle_new_jobs_queue bs now js db :
  snd (handle_new_jobs bs true now js db) =
  map (fun rj => (rj, derive_id (default "" (raw_url rj))))
    (List.filter (fun rj => url_accepted (trimmed_url rj)) js).
Proof.
  revert db. induction js as [|rj js IH]; intros db; [reflexivity|].
  cbn [handle_new_jobs List.filter].
  destruct (url_accepted (trimmed_url rj)) eqn:Ha.
  - rewrite (handle_new_job_accepted bs true now rj db Ha).
    specialize (IH (<[derive_id (default "" (raw_url rj)) := mk_job
                      (derive_id (default "" (raw_url rj))) (split_query (trimmed_url rj))
                      (strip_html bs (raw_title rj)) (strip_html bs (raw_short_description rj))
                      (strip_html bs (raw_budget rj)) (strip_html bs (raw_date rj)) ""
                      pending_interest now]> db)).
    destruct (handle_new_jobs _ _ _ _ _) as [db2 q2]. cbn in IH |- *. rewrite IH. reflexivity.
  - rewrite (handle_new_job_rejected bs true now rj db Ha).
    specialize (IH db). destruct (handle_new_jobs _ _ _ _ _) as [db2 q2]. exact IH.
Qed.

Lemma sublist_map {A B} (f : A -> B) (l1 l2 : list A) :
  sublist l1 l2 -> sublist (map f l1) (map f l2).
Proof. induction 1; cbn; constructor; assumption. Qed.

Lemma filter_sublist {A} (f : A -> bool) (l : list A) : sublist (List.filter f l) l.
Proof.
  induction l as [|x l IH]; cbn; [constructor|].
  destruct (f x); constructor; exact IH.
Qed.

(** One page of [scrape] followed by [handle_new_job] on each new job,
    with notifications on: the queue receives one entry per new job
    whose url is accepted, in page order, carrying its derived id; no
    two entries come from the same stripped url, and none from a url
    that was already in [seen_urls]. *)
Theorem scrape_page_queue bs now too_old page seen db :
  let '(new_jobs, _) := select_new_jobs too_old page seen in
  let q := snd (handle_new_jobs bs true now new_jobs db) in
  map fst q = List.filter (fun rj => url_accepted (trimmed_url rj)) new_jobs /\
  NoDup (map (fun e => trimmed_url (fst e)) q) /\
  Forall (fun e => (trimmed_url (fst e) ∉ seen) /\
                   snd e = derive_id (default "" (raw_url (fst e)))) q.
Proof.
  pose proof (select_new_jobs_dedup too_old page seen) as H.
  destruct (select_new_jobs too_old page seen) as [nj s']. destruct H as (H1 & H2 & _ & _).
  cbv zeta. rewrite handle_new_jobs_queue.
  split; [|split].
  - rewrite map_map. apply map_id.
  - rewrite map_map. cbn.
    eapply sublist_NoDup; [exact H1|]. apply sublist_map, filter_sublist.
  - apply Forall_forall. intros e He. apply list_elem_of_In in He. apply in_map_iff in He as (rj & <- & Hrj).
    apply filter_In in Hrj as [Hrj _]. rewrite Forall_forall in H2.
    destruct (H2 rj (proj2 (list_elem_of_In _ _) Hrj)) as (_ & Hn & _). split; [exact Hn|reflexivity].
Qed.

(* ------------------------------------------------------------------ *)
(** ** The dispatch queue: channel use and counts *)

(** One delivery uses the channel's answers in order and no more than
    it needs: it makes between one and three [send_message] calls, it
    delivers exactly when one of the channel's first three answers is a
    success, and the channel it leaves is the old one without the
    answers it consumed. *)
Theorem send_interest_channel (e : entry) (ch : channel) :
  let '(tr, ch', _) := send_interest e ch in
  (List.In (dv_delivered (snd e)) tr <-> List.In true (firstn 3 ch)) /\
  1 <= attempts tr <= 3 /\ ch' = skipn (attempts tr) ch.
Proof.
  destruct e as [rj jid]. unfold send_interest, attempts. cbn.
  destruct ch as [|[|] ch1]; cbn;
    [repeat split; try lia; intros H; repeat destruct H as [H|H]; try discriminate; tauto..|].
  destruct ch1 as [|[|] ch2]; cbn;
    [repeat split; try lia; intros H; repeat destruct H as [H|H]; try discriminate; tauto..|].
  destruct ch2 as [|[|] ch3]; cbn;
    repeat split; try lia; intros H; repeat destruct H as [H|H]; try discriminate; tauto.
Qed.

